(** * Shallow embedding of [batch_executor.py] (class [BatchExecutor]).

    Text is modelled as Stdlib [string] (ASCII characters); Python's
    [str.strip], [str.split('\n')], ['\n'.join], [str.replace],
    [str.startswith], [int(str)] and the [re.search] of the pattern
    [HTTP.*?(\d{3})] are written out below as the functions the source
    calls.  The process runner [subprocess.run] is an external capability,
    modelled as a function of the 1-based position of the identifier and of
    the command text. *)

From Stdlib Require Import String Ascii List ZArith Bool Lia.
Import ListNotations.
Open Scope string_scope.
Open Scope nat_scope.

(** ** Python string primitives used by the source *)
Module Py.

(** [str.isspace] restricted to ASCII: \t \n \v \f \r, \x1c-\x1f and space. *)
Definition is_space (c : ascii) : bool :=
  let n := nat_of_ascii c in
  ((9 <=? n) && (n <=? 13)) || ((28 <=? n) && (n <=? 32)).

Fixpoint lstrip_l (l : list ascii) : list ascii :=
  match l with
  | [] => []
  | c :: r => if is_space c then lstrip_l r else l
  end.

(** [str.strip()] *)
Definition strip (s : string) : string :=
  string_of_list_ascii
    (rev (lstrip_l (rev (lstrip_l (list_ascii_of_string s))))).

(** [str.startswith(p)] *)
Definition startswith (s p : string) : bool := String.prefix p s.

(** [str.split('\n')] : never empty, ["a\n"] gives ["a"; ""]. *)
Fixpoint split_nl (s : string) : list string :=
  match s with
  | EmptyString => [EmptyString]
  | String c r =>
      let parts := split_nl r in
      if Ascii.eqb c "010"%char then EmptyString :: parts
      else match parts with
           | p :: ps => String c p :: ps
           | [] => [String c EmptyString]
           end
  end.

(** ['\n'.join(l)] *)
Fixpoint join_nl (l : list string) : string :=
  match l with
  | [] => EmptyString
  | [x] => x
  | x :: xs => x ++ String "010"%char (join_nl xs)
  end.

(** [str.replace(old, new)] for a non-empty [old]: left to right,
    non-overlapping occurrences ([fuel] bounds the scan by the length). *)
Fixpoint replace_fuel (fuel : nat) (s old new : string) : string :=
  match fuel with
  | O => s
  | S f =>
      match s with
      | EmptyString => EmptyString
      | String c r =>
          if String.prefix old s then
            new ++ replace_fuel f
                      (substring (String.length old)
                                 (String.length s - String.length old) s)
                      old new
          else String c (replace_fuel f r old new)
      end
  end.

Definition replace (s old new : string) : string :=
  replace_fuel (S (String.length s)) s old new.

(** Python's [\d] on ASCII text. *)
Definition is_digit (c : ascii) : bool :=
  let n := nat_of_ascii c in (48 <=? n) && (n <=? 57).

Definition digit_val (c : ascii) : option Z :=
  if is_digit c then Some (Z.of_nat (nat_of_ascii c) - 48)%Z else None.

(** [int(str)]: surrounding whitespace, an optional sign, then decimal
    digits, single underscores allowed between digits. *)
Fixpoint digits_us (l : list ascii) (acc : Z) (after_us : bool) : option Z :=
  match l with
  | [] => if after_us then None else Some acc
  | c :: r =>
      match digit_val c with
      | Some d => digits_us r (acc * 10 + d)%Z false
      | None =>
          if Ascii.eqb c "_"%char && negb after_us
          then digits_us r acc true else None
      end
  end.

Definition int_of_string (s : string) : option Z :=
  let l := list_ascii_of_string (strip s) in
  let '(sg, body) :=
    match l with
    | c :: r =>
        if Ascii.eqb c "+"%char then (1%Z, r)
        else if Ascii.eqb c "-"%char then ((-1)%Z, r)
        else (1%Z, l)
    | [] => (1%Z, l)
    end in
  match body with
  | d :: r =>
      match digit_val d with
      | Some v => option_map (Z.mul sg) (digits_us r v false)
      | None => None
      end
  | [] => None
  end.

End Py.

(** ** [re.search(r'HTTP.*?(\d{3})', text)]

    A match starts at the leftmost position holding [HTTP]; the lazy
    [.*?] then skips as few non-newline characters as possible before three
    digits.  If no three digits follow on that line, the search restarts at
    the next position. *)
Module Re.

Definition three_digits (s : string) : option string :=
  match s with
  | String a (String b (String c _)) =>
      if Py.is_digit a && Py.is_digit b && Py.is_digit c
      then Some (String a (String b (String c EmptyString)))
      else None
  | _ => None
  end.

(** [.*?(\d{3})] from the current position. *)
Fixpoint lazy_group (s : string) : option string :=
  match three_digits s with
  | Some d => Some d
  | None =>
      match s with
      | EmptyString => None
      | String c r => if Ascii.eqb c "010"%char then None else lazy_group r
      end
  end.

(** One attempt of the pattern at the current position. *)
Definition match_at (s : string) : option string :=
  if String.prefix "HTTP" s
  then lazy_group (substring 4 (String.length s - 4) s)
  else None.

(** Attempts at every position, left to right. *)
Fixpoint search_http (s : string) : option string :=
  match s with
  | EmptyString => None
  | String _ r =>
      match match_at s with
      | Some d => Some d
      | None => search_http r
      end
  end.

(** Exactly three ASCII digits. *)
Definition is_three_digits (d : string) : bool :=
  match d with
  | String a (String b (String c EmptyString)) =>
      Py.is_digit a && Py.is_digit b && Py.is_digit c
  | _ => false
  end.

(** What [.] may cross: no newline. *)
Definition no_newline (s : string) : bool :=
  forallb (fun c => negb (Ascii.eqb c "010"%char)) (list_ascii_of_string s).

End Re.

(** ** [BatchExecutor] *)
Module Executor.

(** Constructor arguments and the [dry_run] argument of
    [run_batch_execution]. *)
Record config := mkConfig {
  delay_ms : Z;
  verify_return : bool;
  dry_run : bool
}.

(** [(exit_code, stdout, stderr)] as returned by [execute_command]; the
    sentinel [-1] stands for a timeout or a launch failure. *)
Record exec_result := mkResult {
  exit_code : Z;
  stdout : string;
  stderr : string
}.

(** [execute_command] wraps [subprocess.run]; the runner receives the
    1-based position [i] of the identifier in the list and the command. *)
Definition runner := nat -> string -> exec_result.

Definition replace_id_in_command (command_template id_value : string) : string :=
  Py.replace command_template "<id>" id_value.

Definition is_curl (command : string) : bool :=
  Py.startswith (Py.strip command) "curl".

Definition extract_http_response_code (command stdout stderr : string)
  : option string :=
  if negb (is_curl command) then None
  else match Re.search_http stderr with
       | Some d => Some d
       | None =>
           match Re.search_http stdout with
           | Some d => Some d
           | None => None
           end
       end.

(** The [for i, line in enumerate(lines)] loop: index of the first line
    whose [strip()] is empty. *)
Fixpoint first_blank (lines : list string) (i : nat) : option nat :=
  match lines with
  | [] => None
  | line :: rest =>
      if String.eqb (Py.strip line) "" then Some i else first_blank rest (S i)
  end.

Definition extract_response_body (command stdout stderr : string) : string :=
  if negb (is_curl command) then stdout
  else
    let lines := Py.split_nl stdout in
    let body_start :=
      match first_blank lines 0 with
      | Some i => S i
      | None => 0
      end in
    if body_start <? length lines
    then Py.strip (Py.join_nl (skipn body_start lines))
    else stdout.

(** [Some true] / [Some false] / [None] stand for [True] / [False] /
    [None]. *)
Definition is_valid_http_code (http_code : option string) : option bool :=
  match http_code with
  | None => None
  | Some s =>
      match Py.int_of_string s with
      | None => None
      | Some code =>
          if (200 <=? code)%Z && (code <? 300)%Z then Some true
          else if (400 <=? code)%Z && (code <? 600)%Z then Some false
          else Some true
      end
  end.

(** Python truthiness of an [Optional[str]]. *)
Definition truthy (o : option string) : bool :=
  match o with
  | Some s => negb (String.eqb s "")
  | None => false
  end.

(** Observable effects of a run: a call of the process runner, the
    per-identifier outcome lines, [time.sleep], and the final summary
    ([Successful], [Failed], [Total]). *)
Inductive event :=
| Exec (command : string)
| Ok (id_value : string)
| Failed (id_value : string)
| Sleep (ms : Z)
| Summary (successful failed total : nat).

Record counters := mkCounters {
  successful_executions : nat;
  failed_executions : nat
}.

Definition zero : counters := mkCounters 0 0.

Definition add_success (c : counters) : counters :=
  mkCounters (S (successful_executions c)) (failed_executions c).

Definition add_failure (c : counters) : counters :=
  mkCounters (successful_executions c) (S (failed_executions c)).

(** [continue] (or falling through to the next iteration) versus [break]. *)
Inductive flow := Continue | Break.

(** [if i < len(ids): time.sleep(...)] *)
Definition delay_after (cfg : config) (n i : nat) : list event :=
  if i <? n then [Sleep (delay_ms cfg)] else [].

(** One iteration of the [for i, id_value in enumerate(ids, 1)] body;
    [n] is [len(ids)]. *)
Definition process_id (cfg : config) (run : runner) (command_template : string)
  (n i : nat) (id_value : string) (c : counters)
  : flow * counters * list event :=
  let command := replace_id_in_command command_template id_value in
  if dry_run cfg then
    (Continue, add_success c, Ok id_value :: delay_after cfg n i)
  else
    let r := run i command in
    let http_code :=
      extract_http_response_code command (stdout r) (stderr r) in
    let stop :=
      if verify_return cfg && truthy http_code then
        match is_valid_http_code http_code with
        | Some false => true
        | _ => false
        end
      else false in
    if stop then (Break, add_failure c, [Exec command; Failed id_value])
    else if (exit_code r =? 0)%Z then
      (Continue, add_success c,
        Exec command :: Ok id_value :: delay_after cfg n i)
    else
      (Continue, add_failure c,
        Exec command :: Failed id_value :: delay_after cfg n i).

(** The loop over the remaining identifiers, from position [i]. *)
Fixpoint loop (cfg : config) (run : runner) (command_template : string)
  (n i : nat) (ids : list string) (c : counters)
  : flow * counters * list event :=
  match ids with
  | [] => (Continue, c, [])
  | id_value :: rest =>
      match process_id cfg run command_template n i id_value c with
      | (Break, c', ev) => (Break, c', ev)
      | (Continue, c', ev) =>
          let '(fl, cf, ev') :=
            loop cfg run command_template n (S i) rest c' in
          (fl, cf, (ev ++ ev')%list)
      end
  end.

(** [run_batch_execution] after the template and the identifiers have been
    loaded ([read_command_template], [read_ids_from_csv]). *)
Definition run_batch_execution (cfg : config) (run : runner)
  (command_template : string) (ids : list string) : list event :=
  match ids with
  | [] => []
  | _ :: _ =>
      let '(_, c, ev) :=
        loop cfg run command_template (length ids) 1 ids zero in
      (ev ++ [Summary (successful_executions c) (failed_executions c)
                     (length ids)])%list
  end.

End Executor.

(** ** Reading a run's events *)
Module Trace.
Import Executor.

Definition is_exec (e : event) : bool :=
  match e with Exec _ => true | _ => false end.
Definition is_ok (e : event) : bool :=
  match e with Ok _ => true | _ => false end.
Definition is_failed (e : event) : bool :=
  match e with Failed _ => true | _ => false end.
Definition is_sleep (e : event) : bool :=
  match e with Sleep _ => true | _ => false end.
Definition is_outcome (e : event) : bool := is_ok e || is_failed e.

Definition count (p : event -> bool) (ev : list event) : nat :=
  length (filter p ev).

(** The identifiers whose processing completed, in order. *)
Fixpoint outcome_ids (ev : list event) : list string :=
  match ev with
  | [] => []
  | Ok x :: r | Failed x :: r => x :: outcome_ids r
  | _ :: r => outcome_ids r
  end.

(** The event sequence of a dry run over [ids]: each identifier recorded as
    a success, one pause between consecutive identifiers. *)
Fixpoint dry_events (d : Z) (ids : list string) : list event :=
  match ids with
  | [] => []
  | [x] => [Ok x]
  | x :: rest => Ok x :: Sleep d :: dry_events d rest
  end.

End Trace.

(** ** The status-line reading of [extract_status_code]

    Second definition, following the words "a protocol/version token
    immediately followed by a 3-digit numeric code": [HTTP/], a non-empty
    version made of digits and dots, one space, three digits; the leftmost
    such status line wins.  It is compared with
    [Executor.extract_http_response_code] below. *)
Module Claimed.

Definition is_version_char (c : ascii) : bool :=
  Py.is_digit c || Ascii.eqb c "."%char.

Fixpoint version_then_code (s : string) (seen : bool) : option string :=
  match s with
  | String c r =>
      if is_version_char c then version_then_code r true
      else if seen && Ascii.eqb c " "%char then Re.three_digits r
      else None
  | EmptyString => None
  end.

Fixpoint search_status_line (s : string) : option string :=
  match s with
  | EmptyString => None
  | String _ r =>
      match (if String.prefix "HTTP/" s
             then version_then_code (substring 5 (String.length s - 5) s) false
             else None) with
      | Some d => Some d
      | None => search_status_line r
      end
  end.

Definition extract_status_code (command stdout stderr : string)
  : option string :=
  if negb (Executor.is_curl command) then None
  else match search_status_line stderr with
       | Some d => Some d
       | None => search_status_line stdout
       end.

End Claimed.

(** ** Concrete inputs used by the examples below *)
Module Samples.
Import Executor.

Definition curl_template : string := "curl -i http://host/items/<id>".

Definition ids3 : list string := ["a"; "b"; "c"].
Definition ids5 : list string := ["a"; "b"; "c"; "d"; "e"].

Definition cfg_verify : config := mkConfig 1000 true false.
Definition cfg_plain : config := mkConfig 1000 false false.
Definition cfg_dry : config := mkConfig 1000 false true.

(** A server that answers [500] to the [k]-th request and [200] otherwise
    (curl run with [-i --fail], so an error status also exits with 22). *)
Definition server_500_at (k : nat) : runner :=
  fun i _ =>
    if Nat.eqb i k
    then mkResult 22 "" "HTTP/1.1 500 Internal Server Error"
    else mkResult 0 "ok" "HTTP/1.1 200 OK".

End Samples.

(** ** Process execution, loading and the two entry points *)
Module IO.
Import Executor.

(** What [subprocess.run(..., timeout=300)] does: completes, times out
    ([TimeoutExpired]) or fails to start (any other exception). *)
Inductive proc_outcome :=
| Completed (returncode : Z) (out err : string)
| TimedOut
| LaunchError (message : string).

(** [execute_command]: never raises; the failures become the sentinel
    result [(-1, "", message)]. *)
Definition execute_command (o : proc_outcome) : exec_result :=
  match o with
  | Completed rc out err => mkResult rc out err
  | TimedOut => mkResult (-1) "" "Command timed out"
  | LaunchError msg => mkResult (-1) "" msg
  end.

(** A file as [open(..., 'r')] finds it. *)
Inductive text_file :=
| Missing
| Unreadable
| Contents (s : string).

(** The CSV file: missing, unreadable (or rejected by [csv.reader]), or
    the rows [csv.reader] yields. *)
Inductive csv_file :=
| CsvMissing
| CsvUnreadable
| CsvRows (rows : list (list string)).

(** The exceptions that leave [run_batch_execution]: the readers'
    re-raised errors, and the [ValueError] / [OverflowError] of
    [time.sleep] for a duration it refuses. *)
Inductive error := FileNotFound | ReadFailure | SleepError.

Definition read_command_template (f : text_file) : error + string :=
  match f with
  | Missing => inl FileNotFound
  | Unreadable => inl ReadFailure
  | Contents s => inr (Py.strip s)
  end.

(** The [for row_num, row in enumerate(reader, 1)] loop: the stripped
    first cell of each row whose first cell is not blank, and the numbers
    of the non-empty rows whose first cell is blank (the warnings). *)
Fixpoint collect_ids (rows : list (list string)) (row_num : nat)
  : list string * list nat :=
  match rows with
  | [] => ([], [])
  | row :: rest =>
      let '(ids, warned) := collect_ids rest (S row_num) in
      match row with
      | [] => (ids, warned)
      | cell :: _ =>
          if negb (String.eqb (Py.strip cell) "")
          then (Py.strip cell :: ids, warned)
          else (ids, row_num :: warned)
      end
  end.

Definition read_ids_from_csv (f : csv_file) : error + (list string * list nat) :=
  match f with
  | CsvMissing => inl FileNotFound
  | CsvUnreadable => inl ReadFailure
  | CsvRows rows => inr (collect_ids rows 1)
  end.

(** [time.sleep(delay_ms / 1000.0)] along the events: [sleep_ok] tells
    which durations the platform's [time.sleep] accepts (it refuses negative
    ones); the first refused pause raises, and nothing after it happens. *)
Fixpoint sleep_checked (sleep_ok : Z -> bool) (ev : list event)
  : list event * bool :=
  match ev with
  | [] => ([], false)
  | e :: r =>
      match e with
      | Sleep ms =>
          if sleep_ok ms then
            let '(r', raised) := sleep_checked sleep_ok r in (e :: r', raised)
          else ([], true)
      | _ => let '(r', raised) := sleep_checked sleep_ok r in (e :: r', raised)
      end
  end.

(** [run_batch_execution] with its two loads: the events that happen and
    the exception that escapes, if any.  A load failure propagates before
    anything runs. *)
Definition run_batch_execution_io (sleep_ok : Z -> bool) (cfg : config)
  (run : runner) (command_file : text_file) (csv : csv_file)
  : list event * option error :=
  match read_command_template command_file with
  | inl e => ([], Some e)
  | inr command_template =>
      match read_ids_from_csv csv with
      | inl e => ([], Some e)
      | inr (ids, _) =>
          let '(ev, raised) :=
            sleep_checked sleep_ok
              (run_batch_execution cfg run command_template ids) in
          (ev, if raised then Some SleepError else None)
      end
  end.

Definition text_exists (f : text_file) : bool :=
  match f with Missing => false | _ => true end.

Definition csv_exists (f : csv_file) : bool :=
  match f with CsvMissing => false | _ => true end.

(** The parsed command line of [batch_executor.main]. *)
Record args := mkArgs {
  command_file : text_file;
  csv : csv_file;
  arg_dry_run : bool;
  arg_delay : Z;
  arg_verify_return : bool
}.

(** [batch_executor.main]: the process exit status and the events. *)
Definition main (sleep_ok : Z -> bool) (a : args) (run : runner)
  : Z * list event :=
  if negb (text_exists (command_file a)) then (1%Z, [])
  else if negb (csv_exists (csv a)) then (1%Z, [])
  else
    match run_batch_execution_io sleep_ok
            (mkConfig (arg_delay a) (arg_verify_return a) (arg_dry_run a))
            run (command_file a) (csv a) with
    | (ev, Some _) => (1%Z, ev)
    | (ev, None) => (0%Z, ev)
    end.

(** [str.lower()] on ASCII. *)
Definition lower_char (c : ascii) : ascii :=
  let n := nat_of_ascii c in
  if (65 <=? n) && (n <=? 90) then ascii_of_nat (n + 32) else c.

Fixpoint lower (s : string) : string :=
  match s with
  | EmptyString => EmptyString
  | String c r => String (lower_char c) (lower r)
  end.

(** [run_example.main]: a dry run with the default settings, then the
    real run if the answer read by [input()] ([None] when it raises) is
    [y] or [yes] once stripped and lower-cased. *)
Definition example_main (sleep_ok : Z -> bool) (command : text_file)
  (ids : csv_file) (run : runner) (response : option string)
  : Z * list event :=
  if negb (text_exists command) then (1%Z, [])
  else if negb (csv_exists ids) then (1%Z, [])
  else
    match run_batch_execution_io sleep_ok (mkConfig 1000 false true)
            run command ids with
    | (ev1, Some _) => (1%Z, ev1)
    | (ev1, None) =>
        match response with
        | None => (1%Z, ev1)
        | Some r =>
            let answer := lower (Py.strip r) in
            if String.eqb answer "y" || String.eqb answer "yes" then
              match run_batch_execution_io sleep_ok (mkConfig 1000 false false)
                      run command ids with
              | (ev2, Some _) => (1%Z, (ev1 ++ ev2)%list)
              | (ev2, None) => (0%Z, (ev1 ++ ev2)%list)
              end
            else (0%Z, ev1)
        end
    end.

End IO.

(** ** Templates built from placeholder-free pieces *)
Module Template.

(** [p1 ++ sep ++ p2 ++ ... ++ pn]. *)
Fixpoint join_with (sep : string) (ps : list string) : string :=
  match ps with
  | [] => EmptyString
  | [p] => p
  | p :: rest => p ++ sep ++ join_with sep rest
  end.

Definition no_lt (p : string) : bool :=
  forallb (fun c => negb (Ascii.eqb c "<"%char)) (list_ascii_of_string p).

End Template.

(** ** More readings of a run *)
Module Observe.
Import Executor.

(** The commands handed to the runner, in order. *)
Fixpoint exec_commands (ev : list event) : list string :=
  match ev with
  | [] => []
  | Exec cmd :: r => cmd :: exec_commands r
  | _ :: r => exec_commands r
  end.

(** How many of [ids], run from position [i], exit with status 0. *)
Fixpoint zero_exits (run : runner) (t : string) (i : nat) (ids : list string)
  : nat :=
  match ids with
  | [] => 0
  | x :: rest =>
      (if (exit_code (run i (replace_id_in_command t x)) =? 0)%Z then 1 else 0)
      + zero_exits run t (S i) rest
  end.

(** A pause, if [e] is one, lasts [d] milliseconds. *)
Definition sleep_is (d : Z) (e : event) : Prop :=
  match e with Sleep ms => ms = d | _ => True end.

(** [row and not row[0].strip()]: the rows [read_ids_from_csv] warns
    about. *)
Definition blank_first_cell (row : list string) : bool :=
  match row with
  | [] => false
  | cell :: _ => String.eqb (Py.strip cell) ""
  end.

(** The identifiers [read_ids_from_csv] keeps from the rows, in order. *)
Definition first_cells (rows : list (list string)) : list string :=
  flat_map (fun row =>
              match row with
              | [] => []
              | cell :: _ =>
                  if String.eqb (Py.strip cell) "" then [] else [Py.strip cell]
              end) rows.

End Observe.

(** * Properties *)
Module Proofs.
Import Executor Trace.
Local Open Scope list_scope.

(** *** Counting over event lists *)

Lemma count_app (p : event -> bool) (a b : list event) :
  count p (a ++ b) = count p a + count p b.
Proof. unfold count. rewrite filter_app, length_app. reflexivity. Qed.

Lemma outcome_ids_app (a b : list event) :
  outcome_ids (a ++ b) = outcome_ids a ++ outcome_ids b.
Proof.
  induction a as [|e a IH]; [reflexivity|].
  destruct e; simpl; rewrite ?IH; reflexivity.
Qed.

Lemma count_outcome_ids (ev : list event) :
  length (outcome_ids ev) = count is_ok ev + count is_failed ev.
Proof.
  induction ev as [|e ev IH]; [reflexivity|].
  destruct e; unfold count in *; simpl; rewrite ?IH; lia.
Qed.

(** *** One iteration *)

(** Every iteration emits (in a real run) one runner call, then exactly one
    outcome, matched by exactly one counter increment, then the pause when
    it continues. *)
Lemma process_id_cases cfg run t n i id_value c :
  exists fl o c',
    process_id cfg run t n i id_value c =
      (fl, c',
        ((if dry_run cfg then [] else [Exec (replace_id_in_command t id_value)])
         ++ o :: match fl with
                 | Continue => delay_after cfg n i
                 | Break => []
                 end)%list) /\
    ((o = Ok id_value /\ c' = add_success c) \/
     (o = Failed id_value /\ c' = add_failure c)).
Proof.
  unfold process_id.
  destruct (dry_run cfg).
  - exists Continue, (Ok id_value), (add_success c). auto.
  - cbv zeta.
    match goal with |- context [if ?b then (Break, _, _) else _] => destruct b end.
    + exists Break, (Failed id_value), (add_failure c). auto.
    + destruct (exit_code _ =? 0)%Z.
      * exists Continue, (Ok id_value), (add_success c). auto.
      * exists Continue, (Failed id_value), (add_failure c). auto.
Qed.

(** [Break] is chosen only by the HTTP-error test of a real run. *)
Lemma process_id_break cfg run t n i id_value c c' ev :
  process_id cfg run t n i id_value c = (Break, c', ev) ->
  let command := replace_id_in_command t id_value in
  let r := run i command in
  dry_run cfg = false /\ verify_return cfg = true /\
  is_valid_http_code
    (extract_http_response_code command (stdout r) (stderr r)) = Some false.
Proof.
  unfold process_id. cbv zeta.
  destruct (dry_run cfg); [discriminate|].
  destruct (verify_return cfg); simpl;
    [|destruct (exit_code _ =? 0)%Z; discriminate].
  destruct (truthy _);
    [|destruct (exit_code _ =? 0)%Z; discriminate].
  destruct (is_valid_http_code _) as [[|]|];
    try (destruct (exit_code _ =? 0)%Z; discriminate).
  auto.
Qed.

Ltac step_cases cfg run t n i x c :=
  let fl := fresh "fl" in let o := fresh "o" in let c1 := fresh "c1" in
  let Hs := fresh "Hstep" in let Ho := fresh "Ho" in
  destruct (process_id_cases cfg run t n i x c)
    as (fl & o & c1 & Hs & [[-> ->] | [-> ->]]);
  rewrite Hs; destruct fl.

(** *** The loop *)

Lemma loop_counters cfg run t n ids :
  forall i c,
    let '(fl, c', ev) := loop cfg run t n i ids c in
    successful_executions c' = successful_executions c + count is_ok ev /\
    failed_executions c' = failed_executions c + count is_failed ev.
Proof.
  induction ids as [|x rest IH]; intros i c; simpl.
  - unfold count; simpl; lia.
  - destruct (process_id_cases cfg run t n i x c)
      as (fl & o & c1 & Hs & Ho); rewrite Hs.
    destruct fl.
    + destruct (loop cfg run t n (S i) rest c1) as [[fl' cf] ev'] eqn:E.
      specialize (IH (S i) c1); rewrite E in IH; destruct IH as [IH1 IH2].
      rewrite !count_app, IH1, IH2.
      unfold delay_after; destruct (dry_run cfg), (i <? n);
        destruct Ho as [[-> ->] | [-> ->]]; unfold count; simpl; lia.
    + destruct (dry_run cfg);
        destruct Ho as [[-> ->] | [-> ->]]; unfold count; simpl; lia.
Qed.

Lemma loop_outcome_ids cfg run t n ids :
  forall i c,
    let '(fl, c', ev) := loop cfg run t n i ids c in
    outcome_ids ev = firstn (length (outcome_ids ev)) ids /\
    (fl = Continue -> outcome_ids ev = ids).
Proof.
  induction ids as [|x rest IH]; intros i c; simpl.
  - auto.
  - destruct (process_id_cases cfg run t n i x c)
      as (fl & o & c1 & Hs & Ho); rewrite Hs.
    destruct fl.
    + destruct (loop cfg run t n (S i) rest c1) as [[fl' cf] ev'] eqn:E.
      specialize (IH (S i) c1); rewrite E in IH; destruct IH as [IH1 IH2].
      rewrite outcome_ids_app.
      assert (Hst : outcome_ids
                ((if dry_run cfg then []
                  else [Exec (replace_id_in_command t x)]) ++
                 o :: delay_after cfg n i) = [x]).
      { unfold delay_after; destruct (dry_run cfg), (i <? n);
          destruct Ho as [[-> _] | [-> _]]; reflexivity. }
      rewrite Hst; simpl. rewrite <- IH1.
      split; [reflexivity|]. intros ->. rewrite IH2; reflexivity.
    + assert (Hst : outcome_ids
                ((if dry_run cfg then []
                  else [Exec (replace_id_in_command t x)]) ++ [o]) = [x]).
      { destruct (dry_run cfg);
          destruct Ho as [[-> _] | [-> _]]; reflexivity. }
      rewrite Hst; simpl. split; [reflexivity | discriminate].
Qed.

Lemma loop_exec_count cfg run t n ids :
  forall i c,
    let '(_, _, ev) := loop cfg run t n i ids c in
    count is_exec ev = if dry_run cfg then 0 else length (outcome_ids ev).
Proof.
  induction ids as [|x rest IH]; intros i c; simpl.
  - destruct (dry_run cfg); reflexivity.
  - destruct (process_id_cases cfg run t n i x c)
      as (fl & o & c1 & Hs & Ho); rewrite Hs.
    destruct fl.
    + destruct (loop cfg run t n (S i) rest c1) as [[fl' cf] ev'] eqn:E.
      specialize (IH (S i) c1); rewrite E in IH.
      rewrite count_app, outcome_ids_app, length_app, IH.
      unfold delay_after; destruct (dry_run cfg), (i <? n);
        destruct Ho as [[-> _] | [-> _]]; reflexivity.
    + destruct (dry_run cfg);
        destruct Ho as [[-> _] | [-> _]]; reflexivity.
Qed.

Lemma loop_tail cfg run t n ids :
  forall i c,
    i + length ids = S n ->
    let '(_, _, ev) := loop cfg run t n i ids c in
    count is_sleep ev = length (outcome_ids ev) - 1 /\
    (ids <> [] -> exists pre o, ev = pre ++ [o] /\ is_outcome o = true).
Proof.
  induction ids as [|x rest IH]; intros i c Hlen; simpl.
  - split; [reflexivity | congruence].
  - destruct (process_id_cases cfg run t n i x c)
      as (fl & o & c1 & Hs & Ho); rewrite Hs.
    assert (Hoo : is_outcome o = true /\ outcome_ids [o] = [x]).
    { destruct Ho as [[-> _] | [-> _]]; split; reflexivity. }
    destruct Hoo as [Hout Hoid].
    assert (Hpre : count is_sleep
                     (if dry_run cfg then []
                      else [Exec (replace_id_in_command t x)]) = 0 /\
                   outcome_ids
                     (if dry_run cfg then []
                      else [Exec (replace_id_in_command t x)]) = []).
    { destruct (dry_run cfg); split; reflexivity. }
    destruct Hpre as [Hps Hpo].
    assert (Ho1 : count is_sleep [o] = 0).
    { destruct Ho as [[-> _] | [-> _]]; reflexivity. }
    destruct fl.
    + destruct (loop cfg run t n (S i) rest c1) as [[fl' cf] ev'] eqn:E.
      assert (Hl : S i + length rest = S n) by (simpl in Hlen; lia).
      specialize (IH (S i) c1 Hl); rewrite E in IH; destruct IH as [IH1 IH2].
      destruct rest as [|y rest'].
      * simpl in E. inversion E; subst ev'.
        unfold delay_after.
        replace (i <? n) with false by (symmetry; apply Nat.ltb_ge; simpl in Hlen; lia).
        rewrite !app_nil_r, count_app, outcome_ids_app, Hps, Hpo, Hoid, Ho1.
        split.
        -- reflexivity.
        -- intros _. exists (if dry_run cfg then []
                             else [Exec (replace_id_in_command t x)]), o.
           auto.
      * destruct (IH2 ltac:(discriminate)) as (pre & o' & Hev & Ho').
        unfold delay_after.
        replace (i <? n) with true by (symmetry; apply Nat.ltb_lt; simpl in Hlen; lia).
        split.
        -- rewrite !count_app, !outcome_ids_app, !length_app, IH1, Hps, Hpo.
           change (o :: [Sleep (delay_ms cfg)]) with ([o] ++ [Sleep (delay_ms cfg)]).
           rewrite count_app, outcome_ids_app, Ho1, Hoid.
           assert (length (outcome_ids ev') >= 1).
           { rewrite Hev, outcome_ids_app, length_app.
             destruct o'; try discriminate; simpl; lia. }
           unfold count; simpl; lia.
        -- intros _. rewrite Hev.
           exists ((if dry_run cfg then []
                    else [Exec (replace_id_in_command t x)]) ++
                   o :: [Sleep (delay_ms cfg)] ++ pre), o'.
           split; [|exact Ho']. rewrite <- !app_assoc. reflexivity.
    + cbv beta iota.
      rewrite count_app, outcome_ids_app, Hps, Hpo, Ho1, Hoid. split.
      * reflexivity.
      * intros _. eexists _, o. split; [reflexivity | exact Hout].
Qed.

Lemma loop_dry cfg run t n ids :
  dry_run cfg = true ->
  forall i c,
    i + length ids = S n ->
    loop cfg run t n i ids c =
      (Continue,
       mkCounters (successful_executions c + length ids) (failed_executions c),
       dry_events (delay_ms cfg) ids).
Proof.
  intros Hdry.
  induction ids as [|x rest IH]; intros i c Hlen; simpl.
  - destruct c; simpl; rewrite Nat.add_0_r; reflexivity.
  - unfold process_id at 1. rewrite Hdry.
    rewrite (IH (S i) (add_success c)) by (simpl in Hlen; lia).
    unfold delay_after, add_success; simpl.
    destruct rest as [|y rest'].
    + replace (i <? n) with false by (symmetry; apply Nat.ltb_ge; simpl in Hlen; lia).
      simpl. rewrite <- !plus_n_Sm. reflexivity.
    + replace (i <? n) with true by (symmetry; apply Nat.ltb_lt; simpl in Hlen; lia).
      simpl. rewrite <- !plus_n_Sm. reflexivity.
Qed.

(** *** The run *)

Lemma run_nonempty cfg run t ids :
  ids <> [] ->
  exists fl c ev,
    loop cfg run t (length ids) 1 ids zero = (fl, c, ev) /\
    run_batch_execution cfg run t ids =
      ev ++ [Summary (successful_executions c) (failed_executions c)
                     (length ids)].
Proof.
  intros Hne. destruct ids as [|x rest]; [congruence|].
  unfold run_batch_execution.
  destruct (loop cfg run t (length (x :: rest)) 1 (x :: rest) zero)
    as [[fl c] ev] eqn:E.
  exists fl, c, ev. auto.
Qed.

Lemma count_dry_events d ids :
  count is_exec (dry_events d ids) = 0 /\ count is_failed (dry_events d ids) = 0.
Proof.
  induction ids as [|x rest IH]; [split; reflexivity|].
  destruct rest as [|y rest']; [split; reflexivity|].
  unfold count in *; simpl in *. exact IH.
Qed.

(** A parsed status is never the empty string, so the [http_code]
    truthiness test never hides an error classification. *)
Lemma invalid_code_truthy (h : option string) :
  is_valid_http_code h = Some false -> truthy h = true.
Proof.
  destruct h as [[|a s]|]; simpl; try reflexivity; discriminate.
Qed.

Lemma process_id_real cfg run t n i x c :
  dry_run cfg = false ->
  process_id cfg run t n i x c =
    let command := replace_id_in_command t x in
    let r := run i command in
    let h := extract_http_response_code command (stdout r) (stderr r) in
    if verify_return cfg &&
       match is_valid_http_code h with Some false => true | _ => false end
    then (Break, add_failure c, [Exec command; Failed x])
    else if (exit_code r =? 0)%Z then
      (Continue, add_success c, Exec command :: Ok x :: delay_after cfg n i)
    else
      (Continue, add_failure c, Exec command :: Failed x :: delay_after cfg n i).
Proof.
  intros Hdry. unfold process_id. rewrite Hdry. cbv zeta.
  destruct (verify_return cfg); simpl; [|reflexivity].
  destruct (is_valid_http_code _) as [[|]|] eqn:V; simpl;
    try (destruct (truthy _); reflexivity).
  rewrite (invalid_code_truthy _ V). reflexivity.
Qed.

Lemma loop_cons cfg run t n i x rest c :
  loop cfg run t n i (x :: rest) c =
    match process_id cfg run t n i x c with
    | (Break, c', ev) => (Break, c', ev)
    | (Continue, c', ev) =>
        let '(fl, cf, ev') := loop cfg run t n (S i) rest c' in
        (fl, cf, ev ++ ev')
    end.
Proof. reflexivity. Qed.

(** ** Claims *)

(** C10: each iteration adds one to exactly one of the two counters, so
    at every point of the loop successes plus failures equal the number of
    identifiers processed so far (a prefix of the list, in order), and equal
    the length of the list when the loop is not stopped early. *)
Theorem counters_track_processed :
  (forall cfg run t n i x c,
     let '(_, c', _) := process_id cfg run t n i x c in
     c' = add_success c \/ c' = add_failure c) /\
  (forall cfg run t n i ids c,
     let '(fl, c', ev) := loop cfg run t n i ids c in
     successful_executions c' + failed_executions c' =
       successful_executions c + failed_executions c + length (outcome_ids ev) /\
     outcome_ids ev = firstn (length (outcome_ids ev)) ids /\
     (fl = Continue -> length (outcome_ids ev) = length ids)).
Proof.
  split.
  - intros cfg run t n i x c.
    destruct (process_id_cases cfg run t n i x c)
      as (fl & o & c1 & -> & [[_ ->] | [_ ->]]); auto.
  - intros cfg run t n i ids c.
    pose proof (loop_counters cfg run t n ids i c) as H1.
    pose proof (loop_outcome_ids cfg run t n ids i c) as H2.
    destruct (loop cfg run t n i ids c) as [[fl c'] ev].
    destruct H1 as [-> ->]. destruct H2 as [H2 H3].
    split; [rewrite count_outcome_ids; lia|]. split; [exact H2|].
    intros Hc. rewrite (H3 Hc). reflexivity.
Qed.

Lemma counters_track_processed_witness :
  let '(fl, c', ev) :=
    loop Samples.cfg_verify (Samples.server_500_at 2) Samples.curl_template
         5 1 Samples.ids5 zero in
  (fl = Continue -> length (outcome_ids ev) = length Samples.ids5) /\
  fl = Break /\ length (outcome_ids ev) = 2.
Proof.
  pose proof (proj2 counters_track_processed Samples.cfg_verify
                (Samples.server_500_at 2) Samples.curl_template 5 1
                Samples.ids5 zero) as H.
  vm_compute in H. vm_compute.
  split; [exact (proj2 (proj2 H)) | split; reflexivity].
Defined.

(** C1 (as the code has it): the final summary of a run over a non-empty
    list reports the success count, the failure count and [len(ids)], the
    number of identifiers loaded; successes plus failures count the
    identifiers actually processed, a prefix of the list. *)
Theorem summary_reports_loaded_total cfg run t ids :
  ids <> [] ->
  exists ev,
    run_batch_execution cfg run t ids =
      ev ++ [Summary (count is_ok ev) (count is_failed ev) (length ids)] /\
    count is_ok ev + count is_failed ev = length (outcome_ids ev) /\
    outcome_ids ev = firstn (length (outcome_ids ev)) ids.
Proof.
  intros Hne.
  destruct (run_nonempty cfg run t ids Hne) as (fl & c & ev & E & ->).
  pose proof (loop_counters cfg run t (length ids) ids 1 zero) as H1.
  pose proof (loop_outcome_ids cfg run t (length ids) ids 1 zero) as H2.
  rewrite E in H1, H2. destruct H1 as [-> ->]. destruct H2 as [H2 _].
  exists ev. split; [reflexivity|]. split; [|exact H2].
  rewrite count_outcome_ids. reflexivity.
Qed.

Lemma summary_reports_loaded_total_witness :
  exists ev,
    run_batch_execution Samples.cfg_verify (Samples.server_500_at 1)
      Samples.curl_template Samples.ids3 =
      ev ++ [Summary (count is_ok ev) (count is_failed ev) 3] /\
    count is_ok ev + count is_failed ev = length (outcome_ids ev) /\
    outcome_ids ev = firstn (length (outcome_ids ev)) Samples.ids3.
Proof.
  apply (summary_reports_loaded_total Samples.cfg_verify
           (Samples.server_500_at 1) Samples.curl_template Samples.ids3).
  discriminate.
Defined.

(** C1 fails as stated: stopped by a [500] on the first of three
    identifiers, the run processes one identifier but its summary reports a
    total of 3, not successes plus failures (0 + 1). *)
Lemma summary_total_counterexample :
  run_batch_execution Samples.cfg_verify (Samples.server_500_at 1)
    Samples.curl_template Samples.ids3 =
    [Exec "curl -i http://host/items/a"; Failed "a"; Summary 0 1 3] /\
  0 + 1 <> 3.
Proof. split; [vm_compute; reflexivity | discriminate]. Qed.

(** C6: the pause is taken once between each two consecutive processed
    identifiers: [N - 1] times for a run over [N] identifiers that is not
    stopped early (none for [N <= 1]), and never after the last processed
    identifier, in particular not after an early stop: the event just before
    the summary is an outcome. *)
Theorem delay_between_identifiers cfg run t ids :
  let ev := run_batch_execution cfg run t ids in
  count is_sleep ev = length (outcome_ids ev) - 1 /\
  (length (outcome_ids ev) = length ids -> count is_sleep ev = length ids - 1) /\
  (ids <> [] ->
   exists pre o s f tot, ev = pre ++ [o; Summary s f tot] /\ is_outcome o = true).
Proof.
  cbv zeta.
  destruct ids as [|x rest].
  { simpl. split; [reflexivity|]. split; [reflexivity | congruence]. }
  destruct (run_nonempty cfg run t (x :: rest) ltac:(discriminate))
    as (fl & c & ev & E & ->).
  pose proof (loop_tail cfg run t (length (x :: rest)) (x :: rest) 1 zero
                ltac:(reflexivity)) as HT.
  rewrite E in HT. destruct HT as [HS HL].
  set (sm := Summary (successful_executions c) (failed_executions c)
                     (length (x :: rest))).
  assert (E1 : count is_sleep [sm] = 0) by reflexivity.
  assert (E2 : outcome_ids [sm] = []) by reflexivity.
  rewrite count_app, outcome_ids_app, E1, E2, app_nil_r, Nat.add_0_r, HS.
  split; [reflexivity|]. split; [intros ->; reflexivity|].
  intros _. destruct (HL ltac:(discriminate)) as (pre & o & -> & Ho).
  exists pre, o, (successful_executions c), (failed_executions c),
    (length (x :: rest)). subst sm.
  split; [rewrite <- app_assoc; reflexivity | exact Ho].
Qed.

Lemma delay_between_identifiers_witness :
  count is_sleep
    (run_batch_execution Samples.cfg_plain (Samples.server_500_at 0)
       Samples.curl_template Samples.ids5) = 4.
Proof.
  apply (proj1 (proj2 (delay_between_identifiers Samples.cfg_plain
                         (Samples.server_500_at 0) Samples.curl_template
                         Samples.ids5))).
  vm_compute. reflexivity.
Defined.

(** C7: a dry run never calls the process runner; it records every
    identifier as a success, no failure, and pauses between consecutive
    identifiers. *)
Theorem dry_run_records_success cfg run t ids :
  dry_run cfg = true ->
  count is_exec (run_batch_execution cfg run t ids) = 0 /\
  (ids <> [] ->
   run_batch_execution cfg run t ids =
     dry_events (delay_ms cfg) ids ++ [Summary (length ids) 0 (length ids)]).
Proof.
  intros Hdry. destruct ids as [|x rest].
  { split; [reflexivity | congruence]. }
  unfold run_batch_execution.
  rewrite (loop_dry cfg run t (length (x :: rest)) (x :: rest) Hdry 1 zero)
    by reflexivity.
  simpl successful_executions; simpl failed_executions.
  split; [|reflexivity].
  rewrite count_app, (proj1 (count_dry_events _ _)). reflexivity.
Qed.

Lemma dry_run_records_success_witness :
  run_batch_execution Samples.cfg_dry (Samples.server_500_at 1)
    Samples.curl_template Samples.ids3 =
    [Ok "a"; Sleep 1000; Ok "b"; Sleep 1000; Ok "c"; Summary 3 0 3].
Proof.
  rewrite (proj2 (dry_run_records_success Samples.cfg_dry
                    (Samples.server_500_at 1) Samples.curl_template
                    Samples.ids3 eq_refl) ltac:(discriminate)).
  reflexivity.
Defined.

(** C8: an empty identifier list ends the run at once: no runner call, no
    success, no failure, no summary, and no error. *)
Theorem empty_ids_no_work cfg run t :
  let ev := run_batch_execution cfg run t [] in
  ev = [] /\ count is_exec ev = 0 /\ count is_ok ev = 0 /\
  count is_failed ev = 0.
Proof. repeat split. Qed.

(** C2: with stop-on-HTTP-error on, an identifier whose extracted status
    classifies as an error adds one failure and ends the loop at once, no
    later identifier being run; this is the only way the loop stops early
    (otherwise every identifier is processed).  With five identifiers, a
    first request exiting 0 without error status and a second one with an
    error status, exactly two commands run, and the summary reports one
    success and one failure. *)
Theorem stop_on_http_error :
  (forall cfg run t n i x rest c,
     verify_return cfg = true -> dry_run cfg = false ->
     let command := replace_id_in_command t x in
     is_valid_http_code
       (extract_http_response_code command
          (stdout (run i command)) (stderr (run i command))) = Some false ->
     loop cfg run t n i (x :: rest) c =
       (Break, add_failure c, [Exec command; Failed x])) /\
  (forall cfg run t n i x c c' ev,
     process_id cfg run t n i x c = (Break, c', ev) ->
     let command := replace_id_in_command t x in
     dry_run cfg = false /\ verify_return cfg = true /\
     is_valid_http_code
       (extract_http_response_code command
          (stdout (run i command)) (stderr (run i command))) = Some false) /\
  (forall cfg run t n i ids c,
     let '(fl, _, ev) := loop cfg run t n i ids c in
     fl = Continue -> outcome_ids ev = ids) /\
  (forall (run : runner) t d x1 x2 x3 x4 x5,
     exit_code (run 1 (replace_id_in_command t x1)) = 0%Z ->
     is_valid_http_code
       (extract_http_response_code (replace_id_in_command t x1)
          (stdout (run 1 (replace_id_in_command t x1)))
          (stderr (run 1 (replace_id_in_command t x1)))) <> Some false ->
     is_valid_http_code
       (extract_http_response_code (replace_id_in_command t x2)
          (stdout (run 2 (replace_id_in_command t x2)))
          (stderr (run 2 (replace_id_in_command t x2)))) = Some false ->
     run_batch_execution (mkConfig d true false) run t [x1; x2; x3; x4; x5] =
       [Exec (replace_id_in_command t x1); Ok x1; Sleep d;
        Exec (replace_id_in_command t x2); Failed x2; Summary 1 1 5]).
Proof.
  split; [|split; [|split]].
  - intros cfg run t n i x rest c Hv Hd command Hc.
    rewrite loop_cons, (process_id_real _ _ _ _ _ _ _ Hd). cbv zeta.
    fold command. rewrite Hv, Hc. reflexivity.
  - intros cfg run t n i x c c' ev H. exact (process_id_break _ _ _ _ _ _ _ _ _ H).
  - intros cfg run t n i ids c.
    pose proof (loop_outcome_ids cfg run t n ids i c) as H.
    destruct (loop cfg run t n i ids c) as [[fl c'] ev].
    exact (proj2 H).
  - intros run t d x1 x2 x3 x4 x5 He H1 H2.
    unfold run_batch_execution.
    rewrite loop_cons, process_id_real by reflexivity. cbv zeta.
    cbn [verify_return andb].
    destruct (is_valid_http_code _) as [[|]|] eqn:V1 in |- *;
      [| exfalso; apply H1; exact V1 |];
      rewrite He; cbn [Z.eqb];
      rewrite loop_cons, process_id_real by reflexivity; cbv zeta;
      cbn [verify_return andb]; rewrite H2; reflexivity.
Qed.

Lemma stop_on_http_error_witness :
  run_batch_execution Samples.cfg_verify (Samples.server_500_at 2)
    Samples.curl_template Samples.ids5 =
    [Exec "curl -i http://host/items/a"; Ok "a"; Sleep 1000;
     Exec "curl -i http://host/items/b"; Failed "b"; Summary 1 1 5].
Proof.
  apply (proj2 (proj2 (proj2 stop_on_http_error))
           (Samples.server_500_at 2) Samples.curl_template 1000%Z
           "a" "b" "c" "d" "e");
    vm_compute; [reflexivity | discriminate | reflexivity].
Defined.

(** *** The status-code search *)

Lemma substring_full (r : string) : substring 0 (String.length r) r = r.
Proof. induction r as [|c r IH]; simpl; [reflexivity | rewrite IH; reflexivity]. Qed.

Lemma prefix_sound (p s : string) :
  String.prefix p s = true -> exists r, s = (p ++ r)%string.
Proof.
  revert s. induction p as [|a p IH]; intros s H.
  - exists s. reflexivity.
  - destruct s as [|b s]; [discriminate|]. simpl in H.
    destruct (ascii_dec a b) as [->|]; [|discriminate].
    destruct (IH s H) as [r ->]. exists r. reflexivity.
Qed.

Lemma match_at_http (x : string) : Re.match_at ("HTTP" ++ x) = Re.lazy_group x.
Proof.
  unfold Re.match_at. simpl. rewrite Nat.sub_0_r, substring_full.
  destruct x; reflexivity.
Qed.

Lemma lazy_group_eq (s : string) :
  Re.lazy_group s =
    match Re.three_digits s with
    | Some d => Some d
    | None =>
        match s with
        | EmptyString => None
        | String c r => if Ascii.eqb c "010"%char then None else Re.lazy_group r
        end
    end.
Proof. destruct s; reflexivity. Qed.

Lemma three_digits_sound (s d : string) :
  Re.three_digits s = Some d ->
  Re.is_three_digits d = true /\ exists post, s = (d ++ post)%string.
Proof.
  destruct s as [|a [|b [|c r]]]; try discriminate. simpl.
  destruct (Py.is_digit a) eqn:A, (Py.is_digit b) eqn:B, (Py.is_digit c) eqn:C;
    try discriminate.
  intros H; inversion H; subst. simpl. rewrite A, B, C.
  split; [reflexivity | exists r; reflexivity].
Qed.

Lemma three_digits_app (d post : string) :
  Re.is_three_digits d = true -> Re.three_digits (d ++ post) = Some d.
Proof.
  destruct d as [|a [|b [|c [|e d]]]]; try discriminate. simpl.
  intros H. rewrite H. reflexivity.
Qed.

Lemma lazy_group_complete (mid d post : string) :
  Re.no_newline mid = true -> Re.is_three_digits d = true ->
  Re.lazy_group (mid ++ d ++ post) <> None.
Proof.
  intros Hm Hd. induction mid as [|c m IH].
  - simpl. rewrite lazy_group_eq, three_digits_app by exact Hd. discriminate.
  - unfold Re.no_newline in Hm. simpl in Hm.
    destruct (Ascii.eqb c "010"%char) eqn:Cn; [discriminate|].
    simpl in Hm.
    change (String c m ++ d ++ post)%string with (String c (m ++ d ++ post)).
    rewrite lazy_group_eq.
    destruct (Re.three_digits (String c (m ++ d ++ post))); [discriminate|].
    rewrite Cn. exact (IH Hm).
Qed.

(** The lazy [.*?] stops at the first digit triple of the line. *)
Lemma lazy_group_sound (s d : string) :
  Re.lazy_group s = Some d ->
  exists mid post,
    s = (mid ++ d ++ post)%string /\ Re.no_newline mid = true /\
    Re.is_three_digits d = true /\
    (forall m1 r1, s = (m1 ++ r1)%string ->
       String.length m1 < String.length mid -> Re.three_digits r1 = None).
Proof.
  induction s as [|c r IH]; intros H.
  - discriminate.
  - rewrite lazy_group_eq in H.
    destruct (Re.three_digits (String c r)) as [d'|] eqn:T.
    + inversion H; subst d'.
      destruct (three_digits_sound _ _ T) as [Hd [post Hp]].
      exists EmptyString, post. repeat split; auto.
      intros m1 r1 _ Hl. simpl in Hl. lia.
    + destruct (Ascii.eqb c "010"%char) eqn:Cn; [discriminate|].
      destruct (IH H) as (mid & post & -> & Hm & Hd & Hmin).
      exists (String c mid), post. split; [reflexivity|].
      split; [unfold Re.no_newline in *; simpl; rewrite Cn, Hm; reflexivity|].
      split; [exact Hd|].
      intros [|c1 m1] r1 Hs Hl.
      * simpl in Hs. subst r1. exact T.
      * simpl in Hs, Hl. inversion Hs; subst.
        apply (Hmin m1 r1); [assumption | lia].
Qed.

Lemma search_http_complete (pre mid d post : string) :
  Re.no_newline mid = true -> Re.is_three_digits d = true ->
  Re.search_http (pre ++ "HTTP" ++ mid ++ d ++ post) <> None.
Proof.
  intros Hm Hd. induction pre as [|c pre IH].
  - pose proof (match_at_http (mid ++ d ++ post)) as MA.
    cbn [append] in MA |- *. cbn [Re.search_http]. rewrite MA.
    destruct (Re.lazy_group (mid ++ d ++ post)) eqn:L; [discriminate|].
    exfalso. exact (lazy_group_complete mid d post Hm Hd L).
  - cbn [append Re.search_http].
    destruct (Re.match_at _); [discriminate | exact IH].
Qed.

(** [re.search] returns the digits of the leftmost [HTTP] that has a digit
    triple after it on its line, the first such triple. *)
Lemma search_http_sound (s d : string) :
  Re.search_http s = Some d ->
  exists pre mid post,
    s = (pre ++ "HTTP" ++ mid ++ d ++ post)%string /\
    Re.no_newline mid = true /\ Re.is_three_digits d = true /\
    (forall pre' mid' d' post',
       String.length pre' < String.length pre ->
       s = (pre' ++ "HTTP" ++ mid' ++ d' ++ post')%string ->
       Re.no_newline mid' = true -> Re.is_three_digits d' = true -> False) /\
    (forall m1 r1, (mid ++ d ++ post)%string = (m1 ++ r1)%string ->
       String.length m1 < String.length mid -> Re.three_digits r1 = None).
Proof.
  induction s as [|c r IH]; intros H.
  - discriminate.
  - cbn [Re.search_http] in H.
    destruct (Re.match_at (String c r)) as [d'|] eqn:M.
    + inversion H; subst d'.
      assert (P : String.prefix "HTTP" (String c r) = true).
      { unfold Re.match_at in M.
        destruct (String.prefix "HTTP" (String c r)); [reflexivity | discriminate]. }
      destruct (prefix_sound _ _ P) as [x Hx].
      rewrite Hx in M |- *. rewrite match_at_http in M.
      destruct (lazy_group_sound _ _ M) as (mid & post & -> & Hm & Hd & Hmin).
      exists EmptyString, mid, post. repeat split; auto.
      intros pre' ? ? ? Hl. simpl in Hl. lia.
    + destruct (IH H) as (pre & mid & post & Hr & Hm & Hd & Hleft & Hmin).
      exists (String c pre), mid, post. split; [rewrite Hr; reflexivity|].
      repeat split; auto.
      intros [|c1 pre'] mid' d' post' Hl Hs Hm' Hd'.
      * pose proof (match_at_http (mid' ++ d' ++ post')) as MA.
        cbn [append] in MA, Hs. rewrite Hs, MA in M.
        exact (lazy_group_complete mid' d' post' Hm' Hd' M).
      * cbn [append String.length] in Hs, Hl. inversion Hs; subst.
        apply (Hleft pre' mid' d' post'); auto. lia.
Qed.

(** *** Parsing a digit triple with [int()] *)

Lemma digit_facts (c : ascii) :
  Py.is_digit c = true ->
  Py.is_space c = false /\
  Ascii.eqb c "+"%char = false /\ Ascii.eqb c "-"%char = false /\
  exists v, Py.digit_val c = Some v /\ (0 <= v <= 9)%Z.
Proof.
  intros H. unfold Py.is_digit in H.
  apply andb_true_iff in H. destruct H as [H1 H2].
  apply Nat.leb_le in H1, H2.
  split; [|split; [|split]].
  - unfold Py.is_space.
    replace (nat_of_ascii c <=? 13) with false
      by (symmetry; apply Nat.leb_gt; lia).
    replace (nat_of_ascii c <=? 32) with false
      by (symmetry; apply Nat.leb_gt; lia).
    rewrite !andb_false_r. reflexivity.
  - destruct (Ascii.eqb_spec c "+"%char) as [->|]; [|reflexivity].
    vm_compute in H1. lia.
  - destruct (Ascii.eqb_spec c "-"%char) as [->|]; [|reflexivity].
    vm_compute in H1. lia.
  - unfold Py.digit_val, Py.is_digit.
    replace (48 <=? nat_of_ascii c) with true by (symmetry; apply Nat.leb_le; lia).
    replace (nat_of_ascii c <=? 57) with true by (symmetry; apply Nat.leb_le; lia).
    eexists; split; [reflexivity | lia].
Qed.

Lemma int_of_three_digits (d : string) :
  Re.is_three_digits d = true ->
  exists code, Py.int_of_string d = Some code /\ (0 <= code <= 999)%Z.
Proof.
  destruct d as [|a [|b [|c [|e d]]]]; try discriminate.
  intros H. cbn [Re.is_three_digits] in H.
  apply andb_true_iff in H as [H Hc]. apply andb_true_iff in H as [Ha Hb].
  destruct (digit_facts a Ha) as (Sa & Pa & Ma & va & Va & Ba).
  destruct (digit_facts b Hb) as (Sb & _ & _ & vb & Vb & Bb).
  destruct (digit_facts c Hc) as (Sc & _ & _ & vc & Vc & Bc).
  unfold Py.int_of_string, Py.strip.
  cbn [list_ascii_of_string rev app Py.lstrip_l].
  rewrite Sa. cbn [rev app Py.lstrip_l]. rewrite Sc.
  cbn [rev app string_of_list_ascii list_ascii_of_string].
  rewrite Pa, Ma, Va. cbn [Py.digits_us]. rewrite Vb, Vc.
  cbn [Py.digits_us option_map].
  eexists; split; [reflexivity | lia].
Qed.

(** X: [extract_http_response_code] as the code has it: no status for a command that does not start
    with [curl] once stripped; otherwise the [re.search] of
    [HTTP.*?(\d{3})] in stderr, then in stdout: the digits following the
    leftmost [HTTP] that has a triple of digits after it on its own line,
    the first such triple, and a result whenever such a triple exists.  For
    [curl -i http://x] with stderr [HTTP/1.1 404 Not Found] it is [404]. *)
Theorem extract_status_code_regex :
  (forall command so se, is_curl command = false ->
     extract_http_response_code command so se = None) /\
  (forall command so se, is_curl command = true ->
     extract_http_response_code command so se =
       match Re.search_http se with
       | Some d => Some d
       | None => Re.search_http so
       end) /\
  (forall s d, Re.search_http s = Some d ->
   exists pre mid post,
     s = (pre ++ "HTTP" ++ mid ++ d ++ post)%string /\
     Re.no_newline mid = true /\ Re.is_three_digits d = true /\
     (forall pre' mid' d' post',
        String.length pre' < String.length pre ->
        s = (pre' ++ "HTTP" ++ mid' ++ d' ++ post')%string ->
        Re.no_newline mid' = true -> Re.is_three_digits d' = true -> False) /\
     (forall m1 r1, (mid ++ d ++ post)%string = (m1 ++ r1)%string ->
        String.length m1 < String.length mid -> Re.three_digits r1 = None)) /\
  (forall pre mid d post,
     Re.no_newline mid = true -> Re.is_three_digits d = true ->
     Re.search_http (pre ++ "HTTP" ++ mid ++ d ++ post) <> None) /\
  extract_http_response_code "curl -i http://x" "" "HTTP/1.1 404 Not Found"
    = Some "404".
Proof.
  split; [|split; [|split; [|split]]].
  - intros command so se H. unfold extract_http_response_code. rewrite H. reflexivity.
  - intros command so se H. unfold extract_http_response_code. rewrite H.
    simpl. destruct (Re.search_http se); [reflexivity|].
    destruct (Re.search_http so); reflexivity.
  - exact search_http_sound.
  - exact search_http_complete.
  - vm_compute. reflexivity.
Qed.

Lemma extract_status_code_regex_witness :
  extract_http_response_code "echo HTTP/1.1 500" "HTTP/1.1 500" "" = None /\
  extract_http_response_code "  curl -sv http://x" "HTTP/2 503" "" = Some "503".
Proof.
  split.
  - apply (proj1 extract_status_code_regex). vm_compute. reflexivity.
  - rewrite (proj1 (proj2 extract_status_code_regex)) by (vm_compute; reflexivity).
    vm_compute. reflexivity.
Defined.

(** C4 (code defect): the docstring promises the HTTP response code and
    the comment a pattern for status lines such as [HTTP/1.1 200 OK], but
    the lazy [HTTP.*?(\d{3})] takes the first three digits after the first
    [HTTP] of a line, wherever they are.  On a proxy banner it returns
    [808] (from the port 8080) instead of the status [404]; on the stderr
    of [curl -v] over HTTP/2, whose request line [* [HTTP/2] [1] [:path:
    ...]] precedes the status line [< HTTP/2 200], it returns digits of the
    path, [404], instead of [200]; with [--verify-return] that request,
    answered 200, is counted as failed and stops the run.  [Claimed] reads
    the status code as the spec describes it. *)
Theorem status_code_failing_inputs :
  let se1 := ("HTTP/1.0 proxy on 8080" ++ String "010" "HTTP/1.1 404 Not Found")%string in
  let se2 := ("* [HTTP/2] [1] [:path: /items/404123]" ++
              String "010" "< HTTP/2 200")%string in
  extract_http_response_code "curl -i http://x" "" se1 = Some "808" /\
  Claimed.extract_status_code "curl -i http://x" "" se1 = Some "404" /\
  extract_http_response_code "curl -v http://host/items/404123" "ok" se2 = Some "404" /\
  Claimed.extract_status_code "curl -v http://host/items/404123" "ok" se2 = Some "200" /\
  run_batch_execution (mkConfig 1000 true false) (fun _ _ => mkResult 0 "ok" se2)
    "curl -v http://host/items/<id>" ["404123"; "7"] =
    [Exec "curl -v http://host/items/404123"; Failed "404123"; Summary 0 1 2].
Proof. cbv zeta. repeat split; vm_compute; reflexivity. Qed.

(** C5: an absent code is indeterminate; a code that [int()] parses is
    an error exactly in 400-599 and a success otherwise (1xx, 2xx, 3xx and
    out-of-range values alike), so only 400-599 can stop the loop. *)
Theorem classify_status :
  is_valid_http_code None = None /\
  (forall s code, Py.int_of_string s = Some code ->
     ((200 <= code < 300)%Z -> is_valid_http_code (Some s) = Some true) /\
     ((400 <= code < 600)%Z -> is_valid_http_code (Some s) = Some false) /\
     (~ (400 <= code < 600)%Z -> is_valid_http_code (Some s) = Some true)) /\
  (forall s, is_valid_http_code (Some s) = Some false ->
     exists code, Py.int_of_string s = Some code /\ (400 <= code < 600)%Z).
Proof.
  split; [reflexivity | split].
  - intros s code H. unfold is_valid_http_code. rewrite H.
    repeat split; intros Hr;
      repeat match goal with
             | |- context [(?a <=? ?b)%Z] => destruct (Z.leb_spec a b)
             | |- context [(?a <? ?b)%Z] => destruct (Z.ltb_spec a b)
             end; simpl; try reflexivity; lia.
  - intros s H. unfold is_valid_http_code in H.
    destruct (Py.int_of_string s) as [code|]; [|discriminate].
    exists code. split; [reflexivity|].
    revert H.
    repeat match goal with
           | |- context [(?a <=? ?b)%Z] => destruct (Z.leb_spec a b)
           | |- context [(?a <? ?b)%Z] => destruct (Z.ltb_spec a b)
           end; simpl; intros Hv; try discriminate; lia.
Qed.

Lemma classify_status_witness :
  is_valid_http_code (Some "404") = Some false /\
  is_valid_http_code (Some "302") = Some true /\
  (exists code, Py.int_of_string "503" = Some code /\ (400 <= code < 600)%Z).
Proof.
  split; [|split].
  - apply (proj1 (proj2 (proj1 (proj2 classify_status) "404" 404%Z
                           ltac:(vm_compute; reflexivity)))).
    lia.
  - apply (proj2 (proj2 (proj1 (proj2 classify_status) "302" 302%Z
                           ltac:(vm_compute; reflexivity)))).
    lia.
  - apply (proj2 (proj2 classify_status) "503"). vm_compute. reflexivity.
Defined.

(** C9: every status returned by [extract_http_response_code] is three
    ASCII digits, which [int()] always parses (to 0-999), so the [None]
    branch of [is_valid_http_code] for an unparseable code is never taken
    on an extracted code. *)
Theorem extracted_code_is_three_digits command so se d :
  extract_http_response_code command so se = Some d ->
  Re.is_three_digits d = true /\
  exists code, Py.int_of_string d = Some code /\ (0 <= code <= 999)%Z /\
    is_valid_http_code (Some d) <> None.
Proof.
  intros H.
  assert (Hd : Re.is_three_digits d = true).
  { unfold extract_http_response_code in H.
    destruct (negb (is_curl command)); [discriminate|].
    destruct (Re.search_http se) as [d1|] eqn:E1.
    - inversion H; subst d1.
      destruct (search_http_sound _ _ E1) as (_ & _ & _ & _ & _ & Hd & _). exact Hd.
    - destruct (Re.search_http so) as [d2|] eqn:E2; [|discriminate].
      inversion H; subst d2.
      destruct (search_http_sound _ _ E2) as (_ & _ & _ & _ & _ & Hd & _). exact Hd. }
  split; [exact Hd|].
  destruct (int_of_three_digits d Hd) as (code & Hc & Hb).
  exists code. split; [exact Hc|]. split; [exact Hb|].
  unfold is_valid_http_code. rewrite Hc.
  destruct (_ && _)%Z; [discriminate|]. destruct (_ && _)%Z; discriminate.
Qed.

Lemma extracted_code_is_three_digits_witness :
  Re.is_three_digits "404" = true /\
  exists code, Py.int_of_string "404" = Some code /\ (0 <= code <= 999)%Z /\
    is_valid_http_code (Some "404") <> None.
Proof.
  apply (extracted_code_is_three_digits "curl -i http://x" ""
           "HTTP/1.1 404 Not Found").
  vm_compute. reflexivity.
Defined.

(** C3 (code defect): with no blank line, the body is the stripped output,
    not the output unchanged, although the source comment says the
    original stdout is returned; and a blank line that ends the output
    leaves the whole output, headers included.  The spec's example does
    give [Hello]. *)
Theorem extract_body_failing_inputs :
  extract_response_body "curl -i http://x" " Hello" "" = "Hello" /\
  extract_response_body "curl -i http://x"
    ("HTTP/1.1 204 No Content" ++ String "010" "") "" =
    ("HTTP/1.1 204 No Content" ++ String "010" "")%string /\
  extract_response_body "curl -i http://x"
    ("HTTP/1.1 200 OK" ++ String "010" "Content-Type: text/plain" ++
     String "010" (String "010" "Hello")) "" = "Hello".
Proof. repeat split; vm_compute; reflexivity. Qed.

End Proofs.

(** * Further properties of the code *)
Module Extra.
Import Executor Trace Proofs.
Local Open Scope list_scope.

(** *** Python string primitives *)

Lemma split_nl_nonempty (s : string) : Py.split_nl s <> [].
Proof.
  destruct s as [|c r]; simpl; [discriminate|].
  destruct (Ascii.eqb c "010"%char); [discriminate|].
  destruct (Py.split_nl r); discriminate.
Qed.

Lemma join_nl_cons (c : ascii) (p : string) (ps : list string) :
  Py.join_nl (String c p :: ps) = String c (Py.join_nl (p :: ps)).
Proof. destruct ps; reflexivity. Qed.

(** ['\n'.join(s.split('\n')) == s]. *)
Theorem split_join_roundtrip (s : string) :
  Py.join_nl (Py.split_nl s) = s.
Proof.
  induction s as [|c r IH]; [reflexivity|].
  cbn [Py.split_nl]. destruct (Ascii.eqb c "010"%char) eqn:E.
  - apply Ascii.eqb_eq in E. subst c.
    pose proof (split_nl_nonempty r) as Hn.
    destruct (Py.split_nl r) as [|p ps]; [congruence|].
    change (Py.join_nl (EmptyString :: p :: ps))
      with (String "010"%char (Py.join_nl (p :: ps))).
    rewrite IH. reflexivity.
  - pose proof (split_nl_nonempty r) as Hn.
    destruct (Py.split_nl r) as [|p ps]; [congruence|].
    rewrite join_nl_cons, IH. reflexivity.
Qed.

(** *** [str.strip()] *)

Lemma lstrip_head (l : list ascii) :
  match Py.lstrip_l l with [] => True | c :: _ => Py.is_space c = false end.
Proof.
  induction l as [|a l IH]; simpl; [exact I|].
  destruct (Py.is_space a) eqn:E; [exact IH | exact E].
Qed.

Lemma lstrip_fix (l : list ascii) :
  match l with [] => True | c :: _ => Py.is_space c = false end ->
  Py.lstrip_l l = l.
Proof. destruct l as [|a l]; simpl; [reflexivity|]. intros ->. reflexivity. Qed.

Lemma lstrip_split (l : list ascii) :
  exists pre, l = pre ++ Py.lstrip_l l.
Proof.
  induction l as [|a l [pre IH]]; simpl; [exists []; reflexivity|].
  destruct (Py.is_space a).
  - exists (a :: pre). simpl. rewrite <- IH. reflexivity.
  - exists []. reflexivity.
Qed.

(** [strip] leaves no whitespace at either end, hence is idempotent. *)
Lemma strip_ends (s : string) :
  let l := list_ascii_of_string (Py.strip s) in
  match l with [] => True | c :: _ => Py.is_space c = false end /\
  match rev l with [] => True | c :: _ => Py.is_space c = false end.
Proof.
  cbv zeta. unfold Py.strip. rewrite list_ascii_of_string_of_list_ascii.
  set (m := Py.lstrip_l (list_ascii_of_string s)).
  set (k := Py.lstrip_l (rev m)).
  rewrite rev_involutive. split; [|apply lstrip_head].
  destruct (lstrip_split (rev m)) as [pre Hpre]. fold k in Hpre.
  assert (Hm : m = rev k ++ rev pre).
  { rewrite <- rev_app_distr, <- Hpre, rev_involutive. reflexivity. }
  pose proof (lstrip_head (list_ascii_of_string s)) as Hh. fold m in Hh.
  destruct (rev k) as [|c r]; [exact I|].
  rewrite Hm in Hh. exact Hh.
Qed.

Lemma strip_idempotent (s : string) : Py.strip (Py.strip s) = Py.strip s.
Proof.
  destruct (strip_ends s) as [H1 H2].
  unfold Py.strip at 1.
  rewrite (lstrip_fix _ H1), (lstrip_fix _ H2), rev_involutive,
    string_of_list_ascii_of_string.
  reflexivity.
Qed.

(** *** [read_command_template], [read_ids_from_csv] *)

(** X: the loaded template is the file's text with surrounding whitespace
    removed, so it neither starts nor ends with whitespace and stripping it
    again changes nothing; a missing or unreadable file raises. *)
Theorem read_command_template_stripped (f : IO.text_file) :
  match IO.read_command_template f with
  | inl e => f = IO.Missing /\ e = IO.FileNotFound \/
             f = IO.Unreadable /\ e = IO.ReadFailure
  | inr t =>
      (exists s, f = IO.Contents s /\ t = Py.strip s) /\
      Py.strip t = t /\
      match list_ascii_of_string t with
      | [] => True | c :: _ => Py.is_space c = false end /\
      match rev (list_ascii_of_string t) with
      | [] => True | c :: _ => Py.is_space c = false end
  end.
Proof.
  destruct f as [| |s]; simpl; auto.
  split; [exists s; auto|]. split; [apply strip_idempotent | apply strip_ends].
Qed.

Lemma warned_rows_cons (n : nat) (row : list string) (rest : list (list string)) :
  filter (fun k => Observe.blank_first_cell (nth (k - n) (row :: rest) []))
    (seq n (S (length rest))) =
  (if Observe.blank_first_cell row then [n] else []) ++
  filter (fun k => Observe.blank_first_cell (nth (k - S n) rest []))
    (seq (S n) (length rest)).
Proof.
  cbn [seq filter]. rewrite Nat.sub_diag.
  change (nth 0 (row :: rest) []) with row.
  assert (Ht : filter (fun k => Observe.blank_first_cell (nth (k - n) (row :: rest) []))
                 (seq (S n) (length rest)) =
               filter (fun k => Observe.blank_first_cell (nth (k - S n) rest []))
                 (seq (S n) (length rest))).
  { apply filter_ext_in. intros k Hk. apply in_seq in Hk.
    replace (k - n) with (S (k - S n)) by lia. reflexivity. }
  rewrite Ht. destruct (Observe.blank_first_cell row); reflexivity.
Qed.

(** X: [read_ids_from_csv] keeps, in row order, the stripped first cell of
    every row whose first cell is not blank; each kept identifier is
    non-empty and already stripped; the warnings are, in increasing order,
    exactly the numbers ([enumerate(reader, n)]) of the rows whose first
    cell is blank, empty rows being skipped silently; so every non-empty
    row gives either an identifier or a warning. *)
Theorem collect_ids_spec (rows : list (list string)) :
  forall n,
    let '(ids, warned) := IO.collect_ids rows n in
    ids = Observe.first_cells rows /\
    Forall (fun x => x <> EmptyString /\ Py.strip x = x) ids /\
    warned = filter (fun k => Observe.blank_first_cell (nth (k - n) rows []))
               (seq n (length rows)) /\
    length ids + length warned =
      length (filter (fun row => match row with [] => false | _ => true end) rows).
Proof.
  induction rows as [|row rest IH]; intros n; [repeat split; constructor|].
  cbn [IO.collect_ids length]. rewrite warned_rows_cons.
  specialize (IH (S n)).
  destruct (IO.collect_ids rest (S n)) as [ids warned].
  destruct IH as (H1 & H2 & H3 & H4).
  destruct row as [|cell cells].
  - cbn [Observe.blank_first_cell app filter Observe.first_cells flat_map].
    repeat split; assumption.
  - cbn [Observe.blank_first_cell filter].
    destruct (String.eqb (Py.strip cell) "") eqn:E; cbn [negb app length].
    + cbn [Observe.first_cells flat_map]. rewrite E. cbn [app].
      repeat split; [exact H1 | exact H2 | rewrite H3; reflexivity | lia].
    + cbn [Observe.first_cells flat_map]. rewrite E. cbn [app].
      split; [rewrite H1; reflexivity|].
      split; [constructor; [|exact H2]; split|].
      * intros Hc. rewrite Hc in E. discriminate.
      * apply strip_idempotent.
      * split; [exact H3 | lia].
Qed.

Lemma collect_ids_spec_witness :
  IO.collect_ids [["  id1 "; "x"]; []; [" "; "y"]; ["id2"]] 1 =
    (["id1"; "id2"], [3]) /\
  Forall (fun x => x <> EmptyString /\ Py.strip x = x) ["id1"; "id2"].
Proof.
  pose proof (collect_ids_spec [["  id1 "; "x"]; []; [" "; "y"]; ["id2"]] 1) as H.
  destruct (IO.collect_ids [["  id1 "; "x"]; []; [" "; "y"]; ["id2"]] 1)
    as [ids warned] eqn:E.
  destruct H as (H1 & H2 & H3 & _).
  vm_compute in H1, H3. subst ids warned.
  split; [reflexivity | exact H2].
Defined.

(** *** [extract_response_body] *)

Lemma first_blank_none (lines : list string) (i : nat) :
  Forall (fun l => Py.strip l <> EmptyString) lines -> first_blank lines i = None.
Proof.
  revert i. induction lines as [|l ls IH]; intros i H; [reflexivity|].
  inversion H; subst. simpl.
  destruct (String.eqb_spec (Py.strip l) ""); [contradiction|]. auto.
Qed.

(** X: for a [curl] command whose stdout has no blank line, the "body" is
    the whole stdout stripped (the headers are not removed). *)
Theorem body_without_blank_line command out err :
  is_curl command = true ->
  Forall (fun l => Py.strip l <> EmptyString) (Py.split_nl out) ->
  extract_response_body command out err = Py.strip out.
Proof.
  intros Hc Hl. unfold extract_response_body. rewrite Hc. cbn [negb].
  rewrite (first_blank_none _ 0 Hl). cbv beta iota zeta.
  assert (Hlt : (0 <? length (Py.split_nl out)) = true).
  { pose proof (split_nl_nonempty out) as Hn.
    destruct (Py.split_nl out); [congruence | reflexivity]. }
  rewrite Hlt. change (skipn 0 (Py.split_nl out)) with (Py.split_nl out).
  rewrite split_join_roundtrip. reflexivity.
Qed.

Lemma body_without_blank_line_witness :
  extract_response_body "curl -i http://x" "HTTP/1.1 200 OK  " "" =
    "HTTP/1.1 200 OK".
Proof.
  apply body_without_blank_line; [vm_compute; reflexivity|].
  vm_compute. repeat constructor; discriminate.
Defined.

Lemma first_blank_app (ls rest : list string) (i : nat) :
  Forall (fun l => Py.strip l <> EmptyString) ls ->
  first_blank (ls ++ rest) i = first_blank rest (i + length ls).
Proof.
  revert i. induction ls as [|l ls IH]; intros i H; cbn [app length].
  - rewrite Nat.add_0_r. reflexivity.
  - inversion H; subst. cbn [first_blank].
    destruct (String.eqb_spec (Py.strip l) ""); [contradiction|].
    rewrite IH by assumption. f_equal. lia.
Qed.

(** X: for a [curl] command whose only blank line of stdout is its last
    line (headers ended by an empty line, and no body), the "body" is the
    whole stdout, headers included and not stripped. *)
Theorem body_blank_last_line command out err ls l :
  is_curl command = true ->
  Py.split_nl out = ls ++ [l] ->
  Forall (fun l => Py.strip l <> EmptyString) ls ->
  Py.strip l = EmptyString ->
  extract_response_body command out err = out.
Proof.
  intros Hc Hs Hl Hb. unfold extract_response_body. rewrite Hc. cbn [negb].
  rewrite Hs, (first_blank_app ls [l] 0 Hl). cbn [first_blank].
  rewrite Hb. cbn [String.eqb]. cbv beta iota zeta.
  rewrite length_app. cbn [length].
  replace (S (0 + length ls) <? length ls + 1) with false; [reflexivity|].
  symmetry. apply Nat.ltb_ge. lia.
Qed.

Lemma body_blank_last_line_witness :
  extract_response_body "curl -i http://x"
    ("HTTP/1.1 204 No Content" ++ String "010" EmptyString)%string "" =
    ("HTTP/1.1 204 No Content" ++ String "010" EmptyString)%string.
Proof.
  apply (body_blank_last_line _ _ _ ["HTTP/1.1 204 No Content"] "");
    [vm_compute; reflexivity | vm_compute; reflexivity | |reflexivity].
  constructor; [vm_compute; discriminate | constructor].
Defined.

(** *** [replace_id_in_command] ([str.replace]) *)

Lemma substring_length (n m : nat) (s : string) :
  String.length (substring n m s) <= m.
Proof.
  revert n m. induction s as [|c s IH]; intros [|n] [|m]; simpl; try lia.
  - specialize (IH 0 m). lia.
  - apply IH.
  - apply IH.
Qed.

Lemma string_length_app (a b : string) :
  String.length (a ++ b) = String.length a + String.length b.
Proof. induction a as [|c a IH]; simpl; [reflexivity | rewrite IH; reflexivity]. Qed.

Lemma append_nil_r (s : string) : (s ++ EmptyString)%string = s.
Proof. induction s as [|c s IH]; simpl; [reflexivity | rewrite IH; reflexivity]. Qed.

Lemma prefix_app (p r : string) : String.prefix p (p ++ r) = true.
Proof.
  induction p as [|c p IH]; [destruct r; reflexivity|].
  simpl. destruct (ascii_dec c c) as [_|n]; [exact IH | congruence].
Qed.

Lemma substring_app (p r : string) :
  substring (String.length p) (String.length r) (p ++ r) = r.
Proof.
  induction p as [|c p IH]; [apply substring_full | exact IH].
Qed.

Lemma replace_fuel_irrel (old new : string) :
  old <> EmptyString ->
  forall f1 f2 s, String.length s < f1 -> String.length s < f2 ->
  Py.replace_fuel f1 s old new = Py.replace_fuel f2 s old new.
Proof.
  intros Hold. induction f1 as [|f1 IH]; intros [|f2] s H1 H2; try lia.
  destruct s as [|c r]; [reflexivity|]. cbn [Py.replace_fuel].
  pose proof (substring_length (String.length old)
                (String.length (String c r) - String.length old) (String c r)) as Hl.
  assert (1 <= String.length old) by (destruct old; [congruence | simpl; lia]).
  assert (String.length (String c r) = S (String.length r)) by reflexivity.
  destruct (String.prefix old (String c r)); f_equal; apply IH; lia.
Qed.

Lemma replace_cons (c : ascii) (r old new : string) :
  String.prefix old (String c r) = false ->
  Py.replace (String c r) old new = String c (Py.replace r old new).
Proof.
  intros H. unfold Py.replace. cbn [Py.replace_fuel]. rewrite H. reflexivity.
Qed.

Lemma prefix_cons (a b : ascii) (s1 s2 : string) :
  String.prefix (String a s1) (String b s2) =
    if ascii_dec a b then String.prefix s1 s2 else false.
Proof. reflexivity. Qed.

Lemma replace_fuel_step (f : nat) (c : ascii) (r old new : string) :
  Py.replace_fuel (S f) (String c r) old new =
    if String.prefix old (String c r) then
      (new ++ Py.replace_fuel f
                (substring (String.length old)
                   (String.length (String c r) - String.length old) (String c r))
                old new)%string
    else String c (Py.replace_fuel f r old new).
Proof. reflexivity. Qed.

Lemma replace_old (old r new : string) :
  old <> EmptyString ->
  Py.replace (old ++ r) old new = (new ++ Py.replace r old new)%string.
Proof.
  intros Hold. unfold Py.replace.
  destruct old as [|c o]; [congruence|].
  change (String c o ++ r)%string with (String c (o ++ r)).
  rewrite replace_fuel_step.
  change (String c (o ++ r)) with (String c o ++ r)%string.
  rewrite prefix_app, string_length_app.
  replace (String.length (String c o) + String.length r - String.length (String c o))
    with (String.length r) by lia.
  rewrite substring_app. f_equal.
  apply replace_fuel_irrel; [discriminate | simpl; lia | lia].
Qed.

Lemma replace_no_lt (p r v : string) :
  Template.no_lt p = true ->
  Py.replace (p ++ r) "<id>" v = (p ++ Py.replace r "<id>" v)%string.
Proof.
  induction p as [|c p IH]; intros H; [reflexivity|].
  unfold Template.no_lt in H. simpl in H.
  apply andb_true_iff in H. destruct H as [Hc Hp].
  change (String c p ++ r)%string with (String c (p ++ r)).
  rewrite replace_cons.
  - rewrite IH by exact Hp. reflexivity.
  - rewrite prefix_cons. destruct (ascii_dec "<"%char c) as [<-|]; [discriminate | reflexivity].
Qed.

(** X: in a template made of pieces without [<], [replace_id_in_command]
    puts the identifier in place of every [<id>], and the identifier's own
    text is inserted as is, never scanned for [<id>] again. *)
Theorem replace_all_placeholders (ps : list string) (v : string) :
  Forall (fun p => Template.no_lt p = true) ps ->
  replace_id_in_command (Template.join_with "<id>" ps) v =
    Template.join_with v ps.
Proof.
  unfold replace_id_in_command.
  induction ps as [|p ps IH]; intros H; [reflexivity|].
  inversion H as [|? ? Hp Hps]; subst.
  destruct ps as [|q qs].
  - simpl. rewrite <- (append_nil_r p) at 1.
    rewrite replace_no_lt by exact Hp. rewrite append_nil_r. reflexivity.
  - change (Template.join_with "<id>" (p :: q :: qs))
      with (p ++ "<id>" ++ Template.join_with "<id>" (q :: qs))%string.
    rewrite replace_no_lt by exact Hp.
    rewrite replace_old by discriminate.
    rewrite (IH Hps). reflexivity.
Qed.

Lemma replace_all_placeholders_witness :
  replace_id_in_command "echo <id> and <id>" "X<id>" = "echo X<id> and X<id>".
Proof.
  apply (replace_all_placeholders ["echo "; " and "; ""] "X<id>").
  repeat constructor.
Defined.

(** *** [execute_command] inside the loop *)

Lemma execute_command_failure_code (o : IO.proc_outcome) (cmd : string) :
  (o = IO.TimedOut \/ exists msg, o = IO.LaunchError msg /\ Re.search_http msg = None) ->
  exit_code (IO.execute_command o) = (-1)%Z /\
  extract_http_response_code cmd (stdout (IO.execute_command o))
    (stderr (IO.execute_command o)) = None.
Proof.
  intros [-> | [msg [-> Hm]]]; (split; [reflexivity|]);
    unfold extract_http_response_code; destruct (is_curl cmd); try reflexivity.
  cbn [negb stderr stdout IO.execute_command]. rewrite Hm. reflexivity.
Qed.

(** X: a command that times out, or fails to start with a message that has
    no HTTP status in it, is counted as a failure and the loop goes on with
    the next identifier (after the usual pause), whatever [verify_return]
    says. *)
Theorem launch_failure_counts_failure cfg run t n i x rest c o :
  dry_run cfg = false ->
  (o = IO.TimedOut \/ exists msg, o = IO.LaunchError msg /\ Re.search_http msg = None) ->
  run i (replace_id_in_command t x) = IO.execute_command o ->
  loop cfg run t n i (x :: rest) c =
    let '(fl, cf, ev') := loop cfg run t n (S i) rest (add_failure c) in
    (fl, cf,
     (Exec (replace_id_in_command t x) :: Failed x :: delay_after cfg n i) ++ ev').
Proof.
  intros Hd Ho Hrun.
  destruct (execute_command_failure_code o (replace_id_in_command t x) Ho)
    as [Hx Hh].
  rewrite loop_cons, (process_id_real cfg run t n i x c Hd). cbv zeta.
  rewrite Hrun, Hh, Hx. cbn [is_valid_http_code]. rewrite andb_false_r.
  reflexivity.
Qed.

Lemma launch_failure_counts_failure_witness :
  loop Samples.cfg_verify (fun _ _ => IO.execute_command IO.TimedOut)
    Samples.curl_template 2 1 ["a"; "b"] zero =
    (Continue, mkCounters 0 2,
     [Exec "curl -i http://host/items/a"; Failed "a"; Sleep 1000;
      Exec "curl -i http://host/items/b"; Failed "b"]).
Proof.
  rewrite (launch_failure_counts_failure Samples.cfg_verify
             (fun _ _ => IO.execute_command IO.TimedOut) Samples.curl_template
             2 1 "a" ["b"] zero IO.TimedOut);
    [vm_compute; reflexivity | reflexivity | left; reflexivity | reflexivity].
Defined.

(** *** Order of the runner's calls *)

Lemma outcome_ids_delay cfg n i : outcome_ids (delay_after cfg n i) = [].
Proof. unfold delay_after. destruct (i <? n); reflexivity. Qed.

Lemma exec_commands_delay cfg n i : Observe.exec_commands (delay_after cfg n i) = [].
Proof. unfold delay_after. destruct (i <? n); reflexivity. Qed.

Lemma exec_commands_app (a b : list event) :
  Observe.exec_commands (a ++ b) = Observe.exec_commands a ++ Observe.exec_commands b.
Proof.
  induction a as [|e a IH]; [reflexivity|].
  destruct e; simpl; rewrite ?IH; reflexivity.
Qed.

Lemma loop_exec_commands cfg run t n ids :
  dry_run cfg = false ->
  forall i c,
    let '(_, _, ev) := loop cfg run t n i ids c in
    Observe.exec_commands ev = map (replace_id_in_command t) (outcome_ids ev).
Proof.
  intros Hd. induction ids as [|x rest IH]; intros i c; [reflexivity|].
  rewrite loop_cons.
  destruct (process_id_cases cfg run t n i x c) as (fl & o & c' & Hp & Ho).
  rewrite Hp, Hd. cbn [app].
  destruct fl.
  - specialize (IH (S i) c').
    destruct (loop cfg run t n (S i) rest c') as [[fl' cf] ev'].
    destruct Ho as [[-> _] | [-> _]];
      cbn [Observe.exec_commands outcome_ids map];
      rewrite exec_commands_app, outcome_ids_app, exec_commands_delay,
        outcome_ids_delay, IH; reflexivity.
  - destruct Ho as [[-> _] | [-> _]]; reflexivity.
Qed.

(** X: in a real run the runner is called once per identifier that gets an
    outcome, in the order of the CSV, with that identifier substituted into
    the template; the identifiers processed are the first [k] of the CSV. *)
Theorem runner_calls_in_order cfg run t ids :
  dry_run cfg = false ->
  let ev := run_batch_execution cfg run t ids in
  exists k,
    outcome_ids ev = firstn k ids /\
    Observe.exec_commands ev = map (replace_id_in_command t) (firstn k ids).
Proof.
  intros Hd. cbv zeta. destruct ids as [|x rest]; [exists 0; split; reflexivity|].
  unfold run_batch_execution.
  pose proof (loop_exec_commands cfg run t (length (x :: rest)) (x :: rest) Hd 1 zero)
    as He.
  pose proof (loop_outcome_ids cfg run t (length (x :: rest)) (x :: rest) 1 zero)
    as Ho.
  destruct (loop cfg run t (length (x :: rest)) 1 (x :: rest) zero)
    as [[fl c] ev].
  exists (length (outcome_ids ev)).
  rewrite exec_commands_app, outcome_ids_app, !app_nil_r.
  destruct Ho as [Ho _]. rewrite <- Ho. split; [reflexivity | exact He].
Qed.

Lemma runner_calls_in_order_witness :
  exists k,
    outcome_ids (run_batch_execution Samples.cfg_verify (Samples.server_500_at 2)
                   Samples.curl_template Samples.ids5) = firstn k Samples.ids5 /\
    Observe.exec_commands
      (run_batch_execution Samples.cfg_verify (Samples.server_500_at 2)
         Samples.curl_template Samples.ids5) =
      map (replace_id_in_command Samples.curl_template) (firstn k Samples.ids5).
Proof.
  exact (runner_calls_in_order Samples.cfg_verify (Samples.server_500_at 2)
           Samples.curl_template Samples.ids5 eq_refl).
Defined.

(** *** Runs without [--verify-return] *)

Lemma process_id_no_verify cfg run t n i x c :
  verify_return cfg = false -> dry_run cfg = false ->
  process_id cfg run t n i x c =
    let command := replace_id_in_command t x in
    if (exit_code (run i command) =? 0)%Z then
      (Continue, add_success c, Exec command :: Ok x :: delay_after cfg n i)
    else
      (Continue, add_failure c, Exec command :: Failed x :: delay_after cfg n i).
Proof.
  intros Hv Hd. rewrite (process_id_real cfg run t n i x c Hd), Hv. reflexivity.
Qed.

Lemma zero_exits_le run t i ids : Observe.zero_exits run t i ids <= length ids.
Proof.
  revert i. induction ids as [|x rest IH]; intros i; simpl; [lia|].
  specialize (IH (S i)).
  destruct (exit_code (run i (replace_id_in_command t x)) =? 0)%Z; lia.
Qed.

Lemma loop_no_verify cfg run t n ids :
  verify_return cfg = false -> dry_run cfg = false ->
  forall i c,
    let '(fl, c', ev) := loop cfg run t n i ids c in
    fl = Continue /\ outcome_ids ev = ids /\
    successful_executions c' =
      successful_executions c + Observe.zero_exits run t i ids /\
    failed_executions c' + Observe.zero_exits run t i ids =
      failed_executions c + length ids.
Proof.
  intros Hv Hd. induction ids as [|x rest IH]; intros i c.
  - simpl. repeat split; lia.
  - rewrite loop_cons, (process_id_no_verify cfg run t n i x c Hv Hd).
    cbv zeta. cbn [Observe.zero_exits length].
    destruct (exit_code (run i (replace_id_in_command t x)) =? 0)%Z;
      [ specialize (IH (S i) (add_success c))
      | specialize (IH (S i) (add_failure c)) ];
      destruct (loop cfg run t n (S i) rest _) as [[fl cf] ev'];
      destruct IH as (-> & Hi & Hs & Hf);
      (split; [reflexivity|]);
      (split;
        [ change (Exec (replace_id_in_command t x) :: ?o :: delay_after cfg n i)
            with ([Exec (replace_id_in_command t x); o] ++ delay_after cfg n i);
          rewrite !outcome_ids_app, outcome_ids_delay, Hi; reflexivity |]);
      cbn [add_success add_failure successful_executions failed_executions] in Hs, Hf;
      lia.
Qed.

(** X: without [--verify-return] (and not a dry run) the loop never stops
    early: every identifier is run once, the successes are exactly the
    commands that exit with status 0 and the failures all the others. *)
Theorem no_verify_runs_every_id cfg run t ids :
  verify_return cfg = false -> dry_run cfg = false -> ids <> [] ->
  exists ev,
    run_batch_execution cfg run t ids =
      ev ++ [Summary (Observe.zero_exits run t 1 ids)
                     (length ids - Observe.zero_exits run t 1 ids)
                     (length ids)] /\
    outcome_ids ev = ids /\ count is_exec ev = length ids.
Proof.
  intros Hv Hd Hne.
  destruct ids as [|x rest]; [congruence|].
  pose proof (loop_no_verify cfg run t (length (x :: rest)) (x :: rest) Hv Hd 1 zero)
    as Hl.
  pose proof (loop_exec_count cfg run t (length (x :: rest)) (x :: rest) 1 zero)
    as Hc.
  unfold run_batch_execution.
  destruct (loop cfg run t (length (x :: rest)) 1 (x :: rest) zero)
    as [[fl c] ev].
  destruct Hl as (_ & Hi & Hs & Hf). cbn [zero successful_executions
    failed_executions] in Hs, Hf.
  exists ev. rewrite Hd in Hc. rewrite Hi in Hc.
  split; [|split; [exact Hi | exact Hc]].
  do 3 f_equal; lia.
Qed.

Lemma no_verify_runs_every_id_witness :
  exists ev,
    run_batch_execution Samples.cfg_plain (Samples.server_500_at 2)
      Samples.curl_template Samples.ids3 =
      ev ++ [Summary 2 1 3] /\ outcome_ids ev = Samples.ids3 /\
    count is_exec ev = 3.
Proof.
  destruct (no_verify_runs_every_id Samples.cfg_plain (Samples.server_500_at 2)
              Samples.curl_template Samples.ids3 eq_refl eq_refl ltac:(discriminate))
    as [ev H].
  exists ev. vm_compute in H. exact H.
Defined.

Lemma loop_exit_codes_only cfg run1 run2 t n ids :
  verify_return cfg = false ->
  (forall i cmd, exit_code (run1 i cmd) = exit_code (run2 i cmd)) ->
  forall i c, loop cfg run1 t n i ids c = loop cfg run2 t n i ids c.
Proof.
  intros Hv He. induction ids as [|x rest IH]; intros i c; [reflexivity|].
  rewrite !loop_cons. unfold process_id. rewrite Hv, He. cbv zeta.
  cbn [andb]. destruct (dry_run cfg);
    [|destruct (exit_code (run2 i (replace_id_in_command t x)) =? 0)%Z];
    rewrite IH; reflexivity.
Qed.

(** X: without [--verify-return] only the exit status of each command
    matters: two process runners that agree on exit statuses give the same
    run, whatever they print. *)
Theorem outputs_unused_without_verify cfg run1 run2 t ids :
  verify_return cfg = false ->
  (forall i cmd, exit_code (run1 i cmd) = exit_code (run2 i cmd)) ->
  run_batch_execution cfg run1 t ids = run_batch_execution cfg run2 t ids.
Proof.
  intros Hv He. unfold run_batch_execution. destruct ids as [|x rest]; [reflexivity|].
  rewrite (loop_exit_codes_only cfg run1 run2 t _ _ Hv He). reflexivity.
Qed.

Lemma outputs_unused_without_verify_witness :
  run_batch_execution Samples.cfg_plain
    (fun _ _ => mkResult 0 "HTTP/1.1 500 Internal Server Error" "")
    Samples.curl_template Samples.ids3 =
  run_batch_execution Samples.cfg_plain (fun _ _ => mkResult 0 "" "")
    Samples.curl_template Samples.ids3.
Proof.
  apply outputs_unused_without_verify; [reflexivity | intros; reflexivity].
Defined.

(** *** [--verify-return] and non-curl commands *)

Lemma loop_non_curl d dr run t n ids :
  Forall (fun x => is_curl (replace_id_in_command t x) = false) ids ->
  forall i c,
    loop (mkConfig d true dr) run t n i ids c =
    loop (mkConfig d false dr) run t n i ids c.
Proof.
  induction ids as [|x rest IH]; intros Hc i c; [reflexivity|].
  inversion Hc as [|? ? Hx Hr]; subst.
  rewrite !loop_cons. unfold process_id.
  cbn [dry_run verify_return delay_ms andb].
  unfold extract_http_response_code at 1. rewrite Hx. cbn [negb truthy andb].
  destruct dr; [|destruct (exit_code (run i (replace_id_in_command t x)) =? 0)%Z];
    rewrite (IH Hr); reflexivity.
Qed.

(** X: [--verify-return] has no effect when no substituted command is a
    [curl] command: the run is the same with and without it. *)
Theorem verify_needs_curl d dr run t ids :
  Forall (fun x => is_curl (replace_id_in_command t x) = false) ids ->
  run_batch_execution (mkConfig d true dr) run t ids =
  run_batch_execution (mkConfig d false dr) run t ids.
Proof.
  intros Hc. unfold run_batch_execution. destruct ids as [|x rest]; [reflexivity|].
  rewrite (loop_non_curl d dr run t _ _ Hc). reflexivity.
Qed.

Lemma verify_needs_curl_witness :
  run_batch_execution (mkConfig 1000 true false) (Samples.server_500_at 1)
    "echo <id>" Samples.ids3 =
  run_batch_execution (mkConfig 1000 false false) (Samples.server_500_at 1)
    "echo <id>" Samples.ids3.
Proof.
  apply verify_needs_curl. repeat constructor.
Defined.

(** *** Pauses *)

Lemma loop_sleeps cfg run t n ids :
  forall i c,
    let '(_, _, ev) := loop cfg run t n i ids c in
    Forall (Observe.sleep_is (delay_ms cfg)) ev.
Proof.
  induction ids as [|x rest IH]; intros i c; [constructor|].
  rewrite loop_cons.
  destruct (process_id_cases cfg run t n i x c) as (fl & o & c' & Hp & Ho).
  rewrite Hp.
  assert (Hpre : Forall (Observe.sleep_is (delay_ms cfg))
    ((if dry_run cfg then [] else [Exec (replace_id_in_command t x)]) ++
     o :: match fl with Continue => delay_after cfg n i | Break => [] end)).
  { apply Forall_app. split.
    - destruct (dry_run cfg); repeat constructor.
    - constructor; [destruct Ho as [[-> _] | [-> _]]; exact I|].
      destruct fl; [|constructor].
      unfold delay_after. destruct (i <? n); repeat constructor. }
  destruct fl; [|exact Hpre].
  specialize (IH (S i) c').
  destruct (loop cfg run t n (S i) rest c') as [[fl' cf] ev'].
  apply Forall_app. split; assumption.
Qed.

Lemma run_sleeps cfg run t ids :
  Forall (Observe.sleep_is (delay_ms cfg)) (run_batch_execution cfg run t ids).
Proof.
  unfold run_batch_execution. destruct ids as [|x rest]; [constructor|].
  pose proof (loop_sleeps cfg run t (length (x :: rest)) (x :: rest) 1 zero) as H.
  destruct (loop cfg run t (length (x :: rest)) 1 (x :: rest) zero)
    as [[fl c] ev].
  apply Forall_app. split; [exact H | repeat constructor].
Qed.

(** *** [time.sleep] refusing a delay, and the two loads *)

Lemma collect_ids_fst (rows : list (list string)) (n : nat) :
  fst (IO.collect_ids rows n) = Observe.first_cells rows.
Proof.
  revert n. induction rows as [|row rest IH]; intros n; [reflexivity|].
  cbn [IO.collect_ids]. specialize (IH (S n)).
  destruct (IO.collect_ids rest (S n)) as [ids w]. cbn [fst] in IH.
  destruct row as [|cell cells]; [exact IH|].
  cbn [Observe.first_cells flat_map].
  destruct (String.eqb (Py.strip cell) ""); cbn; rewrite IH; reflexivity.
Qed.

Lemma sleep_checked_all (sleep_ok : Z -> bool) (d : Z) (ev : list event) :
  sleep_ok d = true -> Forall (Observe.sleep_is d) ev ->
  IO.sleep_checked sleep_ok ev = (ev, false).
Proof.
  intros Hd. induction ev as [|e r IH]; intros H; [reflexivity|].
  inversion H as [|? ? He Hr]; subst. cbn [IO.sleep_checked].
  rewrite (IH Hr). destruct e; try reflexivity.
  cbn [Observe.sleep_is] in He. subst. rewrite Hd. reflexivity.
Qed.

Lemma sleep_checked_stop (sleep_ok : Z -> bool) (d : Z) (pre post : list event) :
  sleep_ok d = false -> forallb (fun e => negb (is_sleep e)) pre = true ->
  IO.sleep_checked sleep_ok (pre ++ Sleep d :: post) = (pre, true).
Proof.
  intros Hd. induction pre as [|e r IH]; intros H.
  - cbn. rewrite Hd. reflexivity.
  - cbn [forallb] in H. apply andb_true_iff in H. destruct H as [He Hr].
    cbn [app IO.sleep_checked]. rewrite (IH Hr).
    destruct e; try reflexivity. discriminate.
Qed.

Lemma sleep_checked_prefix (sleep_ok : Z -> bool) (ev : list event) :
  exists post, ev = fst (IO.sleep_checked sleep_ok ev) ++ post.
Proof.
  induction ev as [|e r [post IH]]; [exists []; reflexivity|].
  cbn [IO.sleep_checked].
  destruct (IO.sleep_checked sleep_ok r) as [r' raised]. cbn [fst] in IH.
  destruct e; try (exists post; cbn; rewrite <- IH; reflexivity).
  destruct (sleep_ok ms); [exists post; cbn; rewrite <- IH; reflexivity|].
  exists (Sleep ms :: r). reflexivity.
Qed.

Lemma io_loaded sleep_ok cfg run s rows :
  sleep_ok (delay_ms cfg) = true ->
  IO.run_batch_execution_io sleep_ok cfg run (IO.Contents s) (IO.CsvRows rows) =
    (run_batch_execution cfg run (Py.strip s) (Observe.first_cells rows), None).
Proof.
  intros Hs. unfold IO.run_batch_execution_io.
  cbn [IO.read_command_template IO.read_ids_from_csv].
  pose proof (collect_ids_fst rows 1) as Hf.
  destruct (IO.collect_ids rows 1) as [ids w]. cbn [fst] in Hf. subst ids.
  rewrite (sleep_checked_all sleep_ok _ _ Hs (run_sleeps cfg run (Py.strip s) _)).
  reflexivity.
Qed.

Lemma io_load_error sleep_ok cfg run f c :
  (exists e, IO.read_command_template f = inl e) \/
  (exists e, IO.read_ids_from_csv c = inl e) ->
  fst (IO.run_batch_execution_io sleep_ok cfg run f c) = [] /\
  snd (IO.run_batch_execution_io sleep_ok cfg run f c) <> None.
Proof.
  unfold IO.run_batch_execution_io.
  intros [[e He] | [e He]]; rewrite He.
  - split; [reflexivity | discriminate].
  - destruct (IO.read_command_template f); split; try reflexivity; discriminate.
Qed.

(** X: [batch_executor.main] exits with status 1, before running anything,
    when either file is missing or cannot be read. *)
Theorem main_load_failure sleep_ok a run :
  (exists e, IO.read_command_template (IO.command_file a) = inl e) \/
  (exists e, IO.read_ids_from_csv (IO.csv a) = inl e) ->
  IO.main sleep_ok a run = (1%Z, []).
Proof.
  intros H. unfold IO.main.
  destruct (negb (IO.text_exists (IO.command_file a))); [reflexivity|].
  destruct (negb (IO.csv_exists (IO.csv a))); [reflexivity|].
  destruct (io_load_error sleep_ok
              (mkConfig (IO.arg_delay a) (IO.arg_verify_return a) (IO.arg_dry_run a))
              run (IO.command_file a) (IO.csv a) H) as [H1 H2].
  destruct (IO.run_batch_execution_io _ _ _ _ _) as [ev [e|]];
    cbn [fst snd] in H1, H2; [subst ev; reflexivity | congruence].
Qed.

Lemma main_load_failure_witness :
  IO.main (fun _ => true)
    (IO.mkArgs (IO.Contents "curl <id>") IO.CsvUnreadable false 1000 true)
    (Samples.server_500_at 0) = (1%Z, []).
Proof.
  apply main_load_failure. right. exists IO.ReadFailure. reflexivity.
Defined.

(** X: with both files readable and a delay [time.sleep] accepts,
    [batch_executor.main] exits with status 0 after running the stripped
    template over the identifiers of the CSV with the options given. *)
Theorem main_runs_batch sleep_ok a run s rows :
  IO.command_file a = IO.Contents s -> IO.csv a = IO.CsvRows rows ->
  sleep_ok (IO.arg_delay a) = true ->
  IO.main sleep_ok a run =
    (0%Z, run_batch_execution
            (mkConfig (IO.arg_delay a) (IO.arg_verify_return a) (IO.arg_dry_run a))
            run (Py.strip s) (Observe.first_cells rows)).
Proof.
  intros Hc Hr Hs. unfold IO.main. rewrite Hc, Hr. cbn [IO.text_exists IO.csv_exists negb].
  rewrite io_loaded by exact Hs. reflexivity.
Qed.

Lemma main_runs_batch_witness :
  IO.main (fun d => (0 <=? d)%Z)
    (IO.mkArgs (IO.Contents (" curl -i http://host/items/<id>" ++ String "010" "")%string)
       (IO.CsvRows [["a"]; ["b"]]) false 1000 true)
    (Samples.server_500_at 0) =
  (0%Z, [Exec "curl -i http://host/items/a"; Ok "a"; Sleep 1000;
         Exec "curl -i http://host/items/b"; Ok "b"; Summary 2 0 2]).
Proof.
  rewrite (main_runs_batch (fun d => (0 <=? d)%Z)
    (IO.mkArgs (IO.Contents (" curl -i http://host/items/<id>" ++ String "010" "")%string)
       (IO.CsvRows [["a"]; ["b"]]) false 1000 true)
    (Samples.server_500_at 0) (" curl -i http://host/items/<id>" ++ String "010" "")%string [["a"]; ["b"]]);
    [vm_compute; reflexivity | reflexivity | reflexivity | reflexivity].
Defined.

(** X: when [time.sleep] refuses the delay (a negative [--delay], say) and
    the CSV has at least two identifiers, [batch_executor.main] exits with
    status 1 after processing only the first identifier, before any pause
    and without the summary (here without [--verify-return]). *)
Theorem main_refused_delay sleep_ok a run s rows x1 x2 rest :
  IO.command_file a = IO.Contents s -> IO.csv a = IO.CsvRows rows ->
  Observe.first_cells rows = x1 :: x2 :: rest ->
  IO.arg_verify_return a = false ->
  sleep_ok (IO.arg_delay a) = false ->
  exists o,
    IO.main sleep_ok a run =
      (1%Z, (if IO.arg_dry_run a
             then [] else [Exec (replace_id_in_command (Py.strip s) x1)]) ++ [o]) /\
    (o = Ok x1 \/ o = Failed x1).
Proof.
  intros Hc Hr Hids Hv Hs. unfold IO.main. rewrite Hc, Hr.
  cbn [IO.text_exists IO.csv_exists negb].
  unfold IO.run_batch_execution_io.
  cbn [IO.read_command_template IO.read_ids_from_csv].
  pose proof (collect_ids_fst rows 1) as Hf.
  destruct (IO.collect_ids rows 1) as [ids w]. cbn [fst] in Hf. subst ids.
  rewrite Hids. unfold run_batch_execution.
  set (cfg := mkConfig (IO.arg_delay a) (IO.arg_verify_return a) (IO.arg_dry_run a)).
  set (n := length (x1 :: x2 :: rest)).
  rewrite loop_cons.
  destruct (process_id_cases cfg run (Py.strip s) n 1 x1 zero)
    as (fl & o & c' & Hp & Ho).
  destruct fl.
  2:{ apply process_id_break in Hp. cbn [cfg verify_return] in Hp.
      rewrite Hv in Hp. destruct Hp as (_ & Hp & _). discriminate. }
  rewrite Hp.
  destruct (loop cfg run (Py.strip s) n 2 (x2 :: rest) c') as [[fl' cf] ev'].
  assert (Hdel : delay_after cfg n 1 = [Sleep (IO.arg_delay a)]) by reflexivity.
  rewrite Hdel.
  set (pre := (if dry_run cfg then [] else [Exec (replace_id_in_command (Py.strip s) x1)])
              ++ [o]).
  assert (Hev : (((if dry_run cfg then [] else [Exec (replace_id_in_command (Py.strip s) x1)])
                  ++ [o; Sleep (IO.arg_delay a)]) ++ ev') ++
                [Summary (successful_executions cf) (failed_executions cf) n] =
                pre ++ Sleep (IO.arg_delay a) ::
                  (ev' ++ [Summary (successful_executions cf) (failed_executions cf) n])).
  { unfold pre. rewrite <- !app_assoc. reflexivity. }
  rewrite Hev.
  rewrite (sleep_checked_stop sleep_ok _ pre _ Hs).
  - exists o. split; [reflexivity|].
    destruct Ho as [[-> _] | [-> _]]; [left | right]; reflexivity.
  - unfold pre. destruct (dry_run cfg);
      destruct Ho as [[-> _] | [-> _]]; reflexivity.
Qed.

Lemma main_refused_delay_witness :
  exists o,
    IO.main (fun d => (0 <=? d)%Z)
      (IO.mkArgs (IO.Contents "curl -i http://host/items/<id>")
         (IO.CsvRows [["a"]; ["b"]; ["c"]]) true (-5) false)
      (Samples.server_500_at 0) = (1%Z, [] ++ [o]) /\
    (o = Ok "a" \/ o = Failed "a").
Proof.
  exact (main_refused_delay (fun d => (0 <=? d)%Z)
    (IO.mkArgs (IO.Contents "curl -i http://host/items/<id>")
       (IO.CsvRows [["a"]; ["b"]; ["c"]]) true (-5) false)
    (Samples.server_500_at 0) "curl -i http://host/items/<id>"
    [["a"]; ["b"]; ["c"]] "a" "b" ["c"] eq_refl eq_refl eq_refl eq_refl eq_refl).
Defined.

(** *** [run_example.main] *)

Lemma run_dry_runner_free cfg run1 run2 t ids :
  dry_run cfg = true ->
  run_batch_execution cfg run1 t ids = run_batch_execution cfg run2 t ids /\
  count is_exec (run_batch_execution cfg run1 t ids) = 0.
Proof.
  intros Hd. unfold run_batch_execution. destruct ids as [|x rest]; [split; reflexivity|].
  rewrite (loop_dry cfg run1 t _ _ Hd 1 zero eq_refl),
    (loop_dry cfg run2 t _ _ Hd 1 zero eq_refl).
  split; [reflexivity|].
  rewrite count_app. destruct (count_dry_events (delay_ms cfg) (x :: rest)) as [H _].
  rewrite H. reflexivity.
Qed.

Lemma io_dry_runner_free sleep_ok cfg run1 run2 f c :
  dry_run cfg = true ->
  IO.run_batch_execution_io sleep_ok cfg run1 f c =
    IO.run_batch_execution_io sleep_ok cfg run2 f c /\
  count is_exec (fst (IO.run_batch_execution_io sleep_ok cfg run1 f c)) = 0.
Proof.
  intros Hd. unfold IO.run_batch_execution_io.
  destruct (IO.read_command_template f) as [e|t]; [split; reflexivity|].
  destruct (IO.read_ids_from_csv c) as [e|[ids w]]; [split; reflexivity|].
  destruct (run_dry_runner_free cfg run1 run2 t ids Hd) as [Heq H0].
  rewrite <- Heq.
  destruct (sleep_checked_prefix sleep_ok (run_batch_execution cfg run1 t ids))
    as [post Hpost].
  destruct (IO.sleep_checked sleep_ok (run_batch_execution cfg run1 t ids))
    as [ev raised].
  split; [reflexivity|]. cbn [fst] in Hpost |- *.
  rewrite Hpost, count_app in H0. lia.
Qed.

(** X: [run_example.main] never runs a command unless the answer read is
    [y] or [yes] (once stripped and lower-cased): it shows only the dry run,
    and the process runner has no influence on it. *)
Theorem example_runner_needs_yes sleep_ok command ids run1 run2 response :
  (forall r, response = Some r ->
     IO.lower (Py.strip r) <> "y" /\ IO.lower (Py.strip r) <> "yes") ->
  IO.example_main sleep_ok command ids run1 response =
    IO.example_main sleep_ok command ids run2 response /\
  count is_exec (snd (IO.example_main sleep_ok command ids run1 response)) = 0.
Proof.
  intros Hr. unfold IO.example_main.
  destruct (negb (IO.text_exists command)); [split; reflexivity|].
  destruct (negb (IO.csv_exists ids)); [split; reflexivity|].
  destruct (io_dry_runner_free sleep_ok (mkConfig 1000 false true) run1 run2
              command ids eq_refl) as [Heq H0].
  rewrite <- Heq.
  destruct (IO.run_batch_execution_io sleep_ok (mkConfig 1000 false true) run1
              command ids) as [ev1 [e|]];
    cbn [fst] in H0; [split; [reflexivity | exact H0]|].
  destruct response as [r|]; [|split; [reflexivity | exact H0]].
  destruct (Hr r eq_refl) as [H1 H2].
  apply String.eqb_neq in H1, H2. rewrite H1, H2. cbn [orb].
  split; [reflexivity | exact H0].
Qed.

Lemma example_runner_needs_yes_witness :
  IO.example_main (fun _ => true) (IO.Contents "curl -i http://host/items/<id>")
    (IO.CsvRows [["a"]; ["b"]]) (Samples.server_500_at 1) (Some " No ") =
  IO.example_main (fun _ => true) (IO.Contents "curl -i http://host/items/<id>")
    (IO.CsvRows [["a"]; ["b"]]) (Samples.server_500_at 0) (Some " No ") /\
  count is_exec
    (snd (IO.example_main (fun _ => true) (IO.Contents "curl -i http://host/items/<id>")
            (IO.CsvRows [["a"]; ["b"]]) (Samples.server_500_at 1) (Some " No "))) = 0.
Proof.
  apply example_runner_needs_yes. intros r Hr. injection Hr as <-.
  split; vm_compute; discriminate.
Defined.

(** X: when the answer is [y] or [yes] (any case, surrounding blanks
    allowed), the files are readable and the one-second pause is accepted,
    [run_example.main] exits with status 0 after the dry-run listing (each
    identifier recorded as a success, one-second pauses, a summary with no
    failure) followed by the real run without [--verify-return]. *)
Theorem example_accepted sleep_ok s rows run r :
  sleep_ok 1000%Z = true ->
  IO.lower (Py.strip r) = "y" \/ IO.lower (Py.strip r) = "yes" ->
  let ids := Observe.first_cells rows in
  IO.example_main sleep_ok (IO.Contents s) (IO.CsvRows rows) run (Some r) =
    (0%Z,
     match ids with
     | [] => []
     | _ :: _ => dry_events 1000 ids ++ [Summary (length ids) 0 (length ids)]
     end ++
     run_batch_execution (mkConfig 1000 false false) run (Py.strip s) ids).
Proof.
  intros Hs Hr. cbv zeta. unfold IO.example_main.
  cbn [IO.text_exists IO.csv_exists negb].
  rewrite !io_loaded by exact Hs.
  assert (Hyes : (String.eqb (IO.lower (Py.strip r)) "y" ||
                  String.eqb (IO.lower (Py.strip r)) "yes")%bool = true).
  { destruct Hr as [-> | ->]; reflexivity. }
  rewrite Hyes. f_equal. f_equal.
  unfold run_batch_execution.
  destruct (Observe.first_cells rows) as [|x rest]; [reflexivity|].
  rewrite (loop_dry (mkConfig 1000 false true) run (Py.strip s) _ _ eq_refl 1 zero eq_refl).
  reflexivity.
Qed.

Lemma example_accepted_witness :
  IO.example_main (fun d => (0 <=? d)%Z) (IO.Contents "curl -i http://host/items/<id>")
    (IO.CsvRows [["a"]; ["b"]]) (Samples.server_500_at 2) (Some (" YES" ++ String "010" "")%string) =
  (0%Z, [Ok "a"; Sleep 1000; Ok "b"; Summary 2 0 2;
         Exec "curl -i http://host/items/a"; Ok "a"; Sleep 1000;
         Exec "curl -i http://host/items/b"; Failed "b"; Summary 1 1 2]).
Proof.
  rewrite (example_accepted (fun d => (0 <=? d)%Z) "curl -i http://host/items/<id>"
             [["a"]; ["b"]] (Samples.server_500_at 2) (" YES" ++ String "010" "")%string);
    [vm_compute; reflexivity | reflexivity | right; vm_compute; reflexivity].
Defined.

End Extra.



